(** * Gas benchmark analysis pipeline (misc/analyze_gas_results.py)

  A shallow embedding of the analysis script: the loader, the descriptive
  reporter, the regression fitter, the visualiser, the code generator and
  [main], followed by the properties the design document states about them.

  Conventions of the embedding.
  - The loaded table is a list of typed records (the schema of the
    benchmark CSV); a missing value (pandas NaN) in a label column or in
    the PushRowTotal column is [None].
  - Integer columns are pandas int64 columns: the one arithmetic
    operation the script itself performs on them, [Rows * Columns], wraps
    around at 64 bits.
  - A Python float is kept as the exact dyadic number it denotes (or nan,
    or an infinity), so that formatting with [.0f] and the comparisons
    against the thresholds are computed exactly.
  - The routines of pandas, scikit-learn and matplotlib that do floating
    point linear algebra, parsing or rasterising are the fields of the
    class [Externals]; the script is a function of them.
  - Console output is a list of printed lines, each a list of pieces
    (literal text, a formatted number, the repr of an object).
  - The file system is a finite map from paths to file contents, together
    with the log of files opened for reading and writing. *)

From Stdlib Require Import ZArith String Ascii List Bool Lia DecimalString Decimal Sorted.
From Stdlib Require Import DecimalN DecimalPos.
From stdpp Require Import gmap strings list fin_maps.

Open Scope string_scope.
Open Scope list_scope.

(** ** Python floats *)

Module PyFloat.

(** [FFin neg m e] is the number (-1)^neg * m * 2^e; the sign is kept
    apart so that negative zero is a value of its own. *)
Inductive pyfloat : Type :=
| FNaN
| FInf (neg : bool)
| FFin (neg : bool) (m : N) (e : Z).

Definition of_Z (z : Z) : pyfloat := FFin (z <? 0)%Z (Z.to_N (Z.abs z)) 0.

(** The integer literal [0] used as a default coefficient. *)
Definition zero : pyfloat := of_Z 0.

(** The doubles written [0.60] and [40] in the source. *)
Definition threshold_r2 : pyfloat := FFin false 5404319552844595 (-53).
Definition threshold_mape : pyfloat := FFin false 40 0.

(** Round to nearest integer, ties to even: the rounding of [.0f]. *)
Definition round_half_even (m : N) (e : Z) : N :=
  if (0 <=? e)%Z then (m * 2 ^ Z.to_N e)%N
  else
    let d := (2 ^ Z.to_N (- e))%N in
    let q := (m / d)%N in
    let r := (m mod d)%N in
    match (2 * r ?= d)%N with
    | Lt => q
    | Gt => (q + 1)%N
    | Eq => if N.even q then q else (q + 1)%N
    end.

Definition sign_prefix (neg : bool) : string := if neg then "-" else "".

(** [format(x, '.0f')] *)
Definition format_0f (x : pyfloat) : string :=
  match x with
  | FNaN => "nan"
  | FInf neg => sign_prefix neg +:+ "inf"
  | FFin neg m e =>
      sign_prefix neg +:+ NilZero.string_of_uint (N.to_uint (round_half_even m e))
  end.

(** Signed mantissa, and comparison of two finite values after bringing
    them to a common exponent. *)
Definition signed (neg : bool) (m : N) : Z :=
  if neg then (- Z.of_N m)%Z else Z.of_N m.

Definition compare_fin (n1 : bool) (m1 : N) (e1 : Z)
                       (n2 : bool) (m2 : N) (e2 : Z) : comparison :=
  let e := Z.min e1 e2 in
  (signed n1 m1 * 2 ^ (e1 - e) ?= signed n2 m2 * 2 ^ (e2 - e))%Z.

(** [x <= y]; every comparison with nan is [False]. *)
Definition le (x y : pyfloat) : bool :=
  match x, y with
  | FNaN, _ | _, FNaN => false
  | FInf true, _ => true
  | _, FInf false => true
  | FInf false, _ => false
  | _, FInf true => false
  | FFin n1 m1 e1, FFin n2 m2 e2 =>
      match compare_fin n1 m1 e1 n2 m2 e2 with Gt => false | _ => true end
  end.

Definition ge (x y : pyfloat) : bool := le y x.
Definition lt (x y : pyfloat) : bool :=
  match x, y with
  | FNaN, _ | _, FNaN => false
  | _, _ => negb (le y x)
  end.

Definition is_nan (x : pyfloat) : bool :=
  match x with FNaN => true | _ => false end.

End PyFloat.
Export PyFloat.

(** ** Python strings *)

Module PyStr.

(** [pat in s] *)
Fixpoint contains (pat s : string) : bool :=
  String.prefix pat s ||
  match s with
  | EmptyString => false
  | String _ s' => contains pat s'
  end.

(** [s.replace('Op_', '')]: every occurrence, scanning left to right. *)
Fixpoint remove_Op_ (s : string) : string :=
  match s with
  | String "O" (String "p" (String "_" rest)) => remove_Op_ rest
  | String c rest => String c (remove_Op_ rest)
  | EmptyString => EmptyString
  end.

(** ['=' * n] *)
Fixpoint repeat_eq (n : nat) : string :=
  match n with
  | O => ""
  | S k => String "=" (repeat_eq k)
  end.

Definition occurs (pat s : string) : Prop :=
  exists pre post, s = pre +:+ pat +:+ post.

End PyStr.
Export PyStr.

(** ** The loaded table *)

(** One benchmark observation, as read from the CSV. A [PushRowTotal] cell
  left empty in the file is read as NaN ([None]). *)
Record csv_record : Type := {
Operation : option string;
FilterComplexity : option string;
Rows : Z;
Columns : Z;
OpenJobGas : Z;
PushRowTotal : option Z;
PushRowAvg : pyfloat;
FinalizeGas : Z;
TotalGas : Z
}.

(** A row of the prepared table: the observation and the derived
  [FilterBytes] cell ([None] is NaN). *)
Record row : Type := {
observation :> csv_record;
FilterBytes : option Z
}.

Inductive cell : Type :=
| CStr (s : string)
| CInt (z : Z)
| CFloat (x : pyfloat)
| CBool (b : bool).

(** A data frame of labelled columns, in column order. *)
Definition frame : Type := list (string * list cell).

(** The result of [groupby(..)[..].agg([..])]: one line per group key, one
  named statistic per aggregate. *)
Definition grouped : Type := list (string * list (string * cell)).

Record coef_row : Type := {
Feature : string;
Coefficient : pyfloat;
Impact : pyfloat
}.

Record linear_model : Type := {
intercept_ : pyfloat;
coef_ : list pyfloat
}.

(** The four panels of the diagnostic figure. *)
Record figure : Type := {
actual_vs_predicted : list (cell * pyfloat);
identity_line : (cell * cell) * (cell * cell);
boxplot_by_operation : list (string * list cell);
coefficient_bars : list (string * pyfloat);
rows_scatter : list (option string * list (cell * cell))
}.

Inductive exn : Type :=
| FileNotFoundError (path : string)
| KeyError (key : string)
| IndexError (msg : string)
| ValueError (msg : string)
| LibraryError (msg : string).

(** ** Console output and the file system *)

Inductive piece : Type :=
| Lit (s : string)
| Num (spec : string) (x : pyfloat)
| Len (n : nat)
| Names (l : list string)
| Head (rows : list row)
| Grouped (g : grouped)
| Coefs (c : list coef_row)
| Raised (e : exn).

Inductive io_event : Type :=
| OpenRead (path : string)
| OpenWrite (path : string).

Record world : Type := {
files : gmap string string;
stdout : list (list piece);
stderr : list (list piece);
io_log : list io_event
}.

(** ** External routines *)

(** The library routines are functions of their arguments. Warnings that a
    library may write to the diagnostic stream while it computes are not
    part of them: [stderr] records what the program itself sends there, the
    tracebacks of [main]. *)
Class Externals : Type := {
(** pandas' CSV parser applied to the text of the file *)
parse_csv : string -> exn + list csv_record;
(** [Series.mean] and [Series.std] *)
series_mean : list cell -> pyfloat;
series_std : list cell -> pyfloat;
(** [LinearRegression().fit(X, y)] and [model.predict(X)] *)
lr_fit : frame -> list cell -> exn + linear_model;
lr_predict : linear_model -> frame -> list pyfloat;
(** [sklearn.metrics] *)
r2_score : list cell -> list pyfloat -> pyfloat;
mean_absolute_percentage_error : list cell -> list pyfloat -> pyfloat;
(** double precision multiplication and division *)
fmul : pyfloat -> pyfloat -> pyfloat;
fdiv : pyfloat -> pyfloat -> pyfloat;
(** [plt.savefig(.., dpi=150)]: the bytes of the rendered image *)
savefig : figure -> string
}.

(** ** The pipeline monad: state (the world) and exceptions *)

Definition M (A : Type) : Type := world -> (exn + A) * world.

#[global] Instance M_ret : MRet M := fun A a w => (inr a, w).

#[global] Instance M_bind : MBind M := fun A B f c w =>
match c w with
| (inr a, w') => f a w'
| (inl e, w') => (inl e, w')
end.

Definition raise {A : Type} (e : exn) : M A := fun w => (inl e, w).

#[global] Instance exn_ret : MRet (sum exn) := fun A a => inr a.

#[global] Instance exn_bind : MBind (sum exn) := fun A B f r =>
  match r with
  | inr a => f a
  | inl e => inl e
  end.

Definition lift {A : Type} (r : exn + A) : M A :=
match r with
| inl e => raise e
| inr a => mret a
end.

Definition emit (line : list piece) (w : world) : world :=
{| files := files w; stdout := stdout w ++ [line];
   stderr := stderr w; io_log := io_log w |}.

Definition emit_err (line : list piece) (w : world) : world :=
{| files := files w; stdout := stdout w;
   stderr := stderr w ++ [line]; io_log := io_log w |}.

(** [print(..)] *)
Definition print (line : list piece) : M unit := fun w => (inr tt, emit line w).

(** [open(path, 'w')] followed by [write(text)]: creates or overwrites. *)
Definition write_file (path text : string) : M unit := fun w =>
(inr tt, {| files := <[path := text]> (files w); stdout := stdout w;
            stderr := stderr w; io_log := io_log w ++ [OpenWrite path] |}).

Definition nl : string := String (ascii_of_nat 10) "".
Definition banner : string := repeat_eq 60.

(** ** The pandas operations the script uses *)

Module Pandas.

(** int64 arithmetic wraps around. *)
Definition wrap_int64 (z : Z) : Z :=
  ((z + 2 ^ 63) mod 2 ^ 64 - 2 ^ 63)%Z.

Definition label_cell (o : option string) : cell :=
  match o with
  | Some s => CStr s
  | None => CFloat FNaN
  end.

Definition int_or_nan (o : option Z) : cell :=
  match o with
  | Some z => CInt z
  | None => CFloat FNaN
  end.

(** The number a cell stands for. *)
Definition cell_float (c : cell) : pyfloat :=
  match c with
  | CInt z => of_Z z
  | CFloat x => x
  | CBool b => of_Z (if b then 1 else 0)
  | CStr _ => FNaN
  end.

(** The columns of the prepared table, in order. *)
Definition schema : list (string * (row -> cell)) :=
  [ ("Operation", fun r : row => label_cell (Operation r));
    ("FilterComplexity", fun r : row => label_cell (FilterComplexity r));
    ("Rows", fun r : row => CInt (Rows r));
    ("Columns", fun r : row => CInt (Columns r));
    ("OpenJobGas", fun r : row => CInt (OpenJobGas r));
    ("PushRowTotal", fun r : row => int_or_nan (PushRowTotal r));
    ("PushRowAvg", fun r : row => CFloat (PushRowAvg r));
    ("FinalizeGas", fun r : row => CInt (FinalizeGas r));
    ("TotalGas", fun r : row => CInt (TotalGas r));
    ("FilterBytes", fun r : row => int_or_nan (FilterBytes r)) ].

Fixpoint accessor (name : string) (cols : list (string * (row -> cell)))
  : option (row -> cell) :=
  match cols with
  | [] => None
  | (n, get) :: rest => if String.eqb n name then Some get else accessor name rest
  end.

(** [df[name]] on the prepared table. *)
Definition column (name : string) (df : list row) : exn + list cell :=
  match accessor name schema with
  | Some get => inr (map get df)
  | None => inl (KeyError name)
  end.

(** [df[names]]: the listed columns, in the order listed. *)
Fixpoint select (names : list string) (df : list row) : exn + frame :=
  match names with
  | [] => inr []
  | n :: rest =>
      match column n df, select rest df with
      | inr c, inr f => inr ((n, c) :: f)
      | inl e, _ => inl e
      | _, inl e => inl e
      end
  end.

(** Sorted distinct labels, missing values left out: the categories of
    [get_dummies] and the group keys of [groupby]. *)
Fixpoint insert_label (s : string) (l : list string) : list string :=
  match l with
  | [] => [s]
  | x :: l' =>
      match String.compare s x with
      | Lt => s :: l
      | Eq => l
      | Gt => x :: insert_label s l'
      end
  end.

Definition categories (labels : list (option string)) : list string :=
  foldr (fun o acc => match o with
                      | Some s => insert_label s acc
                      | None => acc
                      end) [] labels.

(** [Series.unique()]: first appearances, in order, NaN included. *)
Fixpoint unique (labels : list (option string)) : list (option string) :=
  match labels with
  | [] => []
  | o :: rest => o :: filter (fun o' => o' <> o) (unique rest)
  end.

(** [pd.get_dummies(labels, prefix=p)] *)
Definition get_dummies (labels : list (option string)) (p : string) : frame :=
  map (fun c => (p +:+ "_" +:+ c,
                 map (fun o => CBool (bool_decide (o = Some c))) labels))
      (categories labels).

Definition has_column (label : string) (f : frame) : bool :=
  existsb (fun c => String.eqb (fst c) label) f.

(** [f.drop(label, axis=1)] *)
Definition drop (label : string) (f : frame) : exn + frame :=
  if has_column label f
  then inr (filter (fun c => fst c <> label) f)
  else inl (KeyError ("['" +:+ label +:+ "'] not found in axis")).

(** [f[label] = cells]: replaces the column if it is there, otherwise adds
    it as the last one. *)
Definition set_column (label : string) (cells : list cell) (f : frame) : frame :=
  if has_column label f
  then map (fun c => if String.eqb (fst c) label then (label, cells) else c) f
  else f ++ [(label, cells)].

(** [pd.concat([f, g], axis=1)] on frames over the same index *)
Definition concat (f g : frame) : frame := f ++ g.

(** [Series.min()] and [Series.max()], skipping NaN. *)
Definition pick (better : pyfloat -> pyfloat -> bool) (c acc : cell) : cell :=
  if is_nan (cell_float c) then acc
  else if is_nan (cell_float acc) then c
  else if better (cell_float acc) (cell_float c) then acc else c.

Definition series_min (l : list cell) : cell :=
  foldr (pick PyFloat.le) (CFloat FNaN) l.

Definition series_max (l : list cell) : cell :=
  foldr (pick PyFloat.ge) (CFloat FNaN) l.

Inductive agg_fn : Type := Mean | Min | Max | Std.

Definition agg_name (f : agg_fn) : string :=
  match f with
  | Mean => "mean"
  | Min => "min"
  | Max => "max"
  | Std => "std"
  end.

Definition aggregate `{Externals} (f : agg_fn) (l : list cell) : cell :=
  match f with
  | Mean => CFloat (series_mean l)
  | Min => series_min l
  | Max => series_max l
  | Std => CFloat (series_std l)
  end.

(** The cells of [value] in the rows whose [key] is [k]. *)
Definition group_values (key : row -> option string) (value : row -> cell)
           (k : string) (df : list row) : list cell :=
  map value (filter (fun r => key r = Some k) df).

(** [df.groupby(key)[value].agg(fns)] *)
Definition groupby_agg `{Externals} (key : row -> option string)
           (value : row -> cell) (fns : list agg_fn) (df : list row) : grouped :=
  map (fun k => (k, map (fun f => (agg_name f,
                                   aggregate f (group_values key value k df))) fns))
      (categories (map key df)).

(** [g.loc[k, stat]] *)
Definition loc (k stat : string) (g : grouped) : exn + cell :=
  match list_find (fun line => fst line = k) g with
  | None => inl (KeyError k)
  | Some (_, (_, stats)) =>
      match list_find (fun s => fst s = stat) stats with
      | None => inl (KeyError stat)
      | Some (_, (_, v)) => inr v
      end
  end.

(** Stable insertion of [x] in a list sorted by decreasing key, NaN
    keys last: [sort_values(.., ascending=False)]. The library's default
    sorting algorithm does not promise an order among rows of equal key;
    keeping their order is a choice made here, and the properties of the
    sorted table below are stated so as not to rest on it. *)
Definition goes_first (a b : pyfloat) : bool :=
  PyFloat.lt b a || (negb (is_nan a) && is_nan b).

Fixpoint insert_desc {A : Type} (key : A -> pyfloat) (x : A) (l : list A) : list A :=
  match l with
  | [] => [x]
  | y :: l' =>
      if goes_first (key y) (key x) then y :: insert_desc key x l' else x :: l
  end.

Definition sort_values_desc {A : Type} (key : A -> pyfloat) (l : list A) : list A :=
  foldr (insert_desc key) [] l.

End Pandas.
Export Pandas.

(** ** The stages of the pipeline *)

Section Pipeline.

Context `{lib : Externals}.

Definition hundred : pyfloat := of_Z 100.

Definition ints (f : row -> Z) (df : list row) : list cell :=
  map (fun r => CInt (f r)) df.

(** [pd.read_csv(path)] *)
Definition read_csv (path : string) : M (list csv_record) := fun w =>
  match files w !! path with
  | None => (inl (FileNotFoundError path), w)
  | Some text =>
      (parse_csv text,
       {| files := files w; stdout := stdout w; stderr := stderr w;
          io_log := io_log w ++ [OpenRead path] |})
  end.

Definition filter_bytecode_map : gmap string Z :=
  list_to_map [("none", 0%Z); ("simple", 7%Z); ("medium", 15%Z); ("complex", 30%Z)].

(** [Series.map(d)] on one cell: a label that is not a key, or a missing
    label, gives NaN. *)
Definition map_label (d : gmap string Z) (o : option string) : option Z :=
  match o with
  | Some s => d !! s
  | None => None
  end.

Definition add_filter_bytes (r : csv_record) : row :=
  {| observation := r;
     FilterBytes := map_label filter_bytecode_map (FilterComplexity r) |}.

Definition load_and_prepare_data (csv_path : string) : M (list row) :=
  print [Lit (nl +:+ banner)];;
  print [Lit "Loading data..."];;
  print [Lit (banner +:+ nl)];;
  raw ← read_csv csv_path;
  print [Lit "Loaded "; Len (length raw); Lit " test cases"];;
  print [Lit (nl +:+ "Columns: "); Names (map fst (take 9 schema))];;
  let df := map add_filter_bytes raw in
  print [Lit (nl +:+ "Data preview:")];;
  print [Head (take 5 df)];;
  mret df.

Definition phase_line (label : string) (phase total : pyfloat) : list piece :=
  [Lit label; Num ",.0f" phase; Lit " gas (";
   Num ".1f" (fmul (fdiv phase total) hundred); Lit "%)"].

Definition analyze_basic_statistics (df : list row) : M unit :=
  print [Lit (nl +:+ banner)];;
  print [Lit "Basic Statistics"];;
  print [Lit (banner +:+ nl)];;
  print [Lit "Total Gas by Operation:"];;
  print [Grouped (groupby_agg (fun r : row => Operation r) (fun r => CInt (TotalGas r))
                              [Mean; Min; Max; Std] df)];;
  print [Lit (nl +:+ nl +:+ "Total Gas by Filter Complexity:")];;
  print [Grouped (groupby_agg (fun r : row => FilterComplexity r) (fun r => CInt (TotalGas r))
                              [Mean; Min; Max] df)];;
  print [Lit (nl +:+ nl +:+ "Gas Phase Breakdown (averages):")];;
  let total := series_mean (ints TotalGas df) in
  print (phase_line "  OpenJob:       " (series_mean (ints OpenJobGas df)) total);;
  print (phase_line "  PushRow Total: " (series_mean (map (fun r : row => int_or_nan (PushRowTotal r)) df)) total);;
  print (phase_line "  Finalize:      " (series_mean (ints FinalizeGas df)) total);;
  print [Lit "  Total:         "; Num ",.0f" total; Lit " gas"].

(** Lines 74 to 84: the feature matrix of the regression. *)
Definition feature_matrix (df : list row) (include_interaction : bool) : exn + frame :=
  X ← select ["Rows"; "Columns"; "FilterBytes"] df;
  let X := if include_interaction
           then set_column "Rows_x_Columns"
                  (map (fun r : row => CInt (wrap_int64 (Rows r * Columns r))) df) X
           else X in
  let operation_dummies := get_dummies (map (fun r : row => Operation r) df) "Op" in
  operation_dummies ← drop "Op_COUNT" operation_dummies;
  mret (concat X operation_dummies).

(** [pd.DataFrame({'Feature': .., 'Coefficient': .., 'Impact': ..})
      .sort_values('Coefficient', ascending=False)] *)
Definition coefficient_table (names : list string) (coefs : list pyfloat)
  : exn + list coef_row :=
  if (length names =? length coefs)%nat
  then inr (sort_values_desc Coefficient
              (zip_with (fun n c => {| Feature := n; Coefficient := c; Impact := c |})
                        names coefs))
  else inl (ValueError "All arrays must be of the same length").

Definition build_regression_model (df : list row) (target : string)
           (include_interaction : bool)
  : M (linear_model * frame * list cell * list pyfloat * list coef_row) :=
  print [Lit (nl +:+ banner)];;
  print [Lit "Building Regression Model for "; Lit target];;
  (if include_interaction then print [Lit "(with Rows × Columns interaction)"]
   else mret tt);;
  print [Lit (banner +:+ nl)];;
  X ← lift (feature_matrix df include_interaction);
  y ← lift (column target df);
  model ← lift (lr_fit X y);
  let y_pred := lr_predict model X in
  let r2 := r2_score y y_pred in
  let mape := fmul (mean_absolute_percentage_error y y_pred) hundred in
  print [Lit "Model Performance:"];;
  print [Lit "  R² Score:  "; Num ".4f" r2; Lit " (";
         Num ".1f" (fmul r2 hundred); Lit "% variance explained)"];;
  print [Lit "  MAPE:      "; Num ".2f" mape; Lit "%"];;
  print [Lit "  Target:    R² ≥ 0.60, MAPE ≤ 40%"];;
  (if PyFloat.ge r2 threshold_r2
   then print [Lit "  ✓ Model meets R² target!"]
   else print [Lit "  ✗ Model below R² target"]);;
  (if PyFloat.le mape threshold_mape
   then print [Lit "  ✓ Model meets MAPE target!"]
   else print [Lit "  ✗ Model above MAPE target - consider more terms"]);;
  print [Lit (nl +:+ "Model Coefficients:")];;
  print [Lit "  Intercept: "; Num ",.0f" (intercept_ model); Lit " gas"];;
  coef_df ← lift (coefficient_table (map fst X) (coef_ model));
  print [Lit nl; Coefs coef_df];;
  mret (model, X, y, y_pred, coef_df).

Definition stat (name : string) (stats : list (string * cell)) : cell :=
  match list_find (fun s => fst s = name) stats with
  | Some (_, (_, v)) => v
  | None => CFloat FNaN
  end.

Definition analyze_per_row_costs (df : list row) : M unit :=
  print [Lit (nl +:+ banner)];;
  print [Lit "Per-Row Cost Analysis"];;
  print [Lit (banner +:+ nl)];;
  print [Lit "Average gas per row by operation:"];;
  let per_row := groupby_agg (fun r : row => Operation r) (fun r => CFloat (PushRowAvg r))
                             [Mean; Std] df in
  print [Grouped per_row];;
  baseline ← lift (loc "COUNT" "mean" per_row);
  let relative := map (fun line : string * list (string * cell) =>
                         (fst line,
                          [("Relative",
                            CFloat (fdiv (cell_float (stat "mean" (snd line)))
                                         (cell_float baseline)))])) per_row in
  print [Lit (nl +:+ "Relative to COUNT (1.0x):")];;
  print [Grouped (sort_values_desc (fun line => cell_float (stat "Relative" (snd line)))
                                   relative)].

(** [df[df['Operation'] == op]]: NaN is equal to nothing. *)
Definition rows_of_operation (op : option string) (df : list row) : list row :=
  match op with
  | Some s => filter (fun r : row => Operation r = Some s) df
  | None => []
  end.

Definition build_figure (df : list row) (y_pred : list pyfloat)
           (coef_df : list coef_row) : figure :=
  let total := ints TotalGas df in
  let lo := series_min total in
  let hi := series_max total in
  {| actual_vs_predicted := zip total y_pred;
     identity_line := ((lo, lo), (hi, hi));
     boxplot_by_operation :=
       map (fun k => (k, group_values (fun r : row => Operation r)
                                      (fun r => CInt (TotalGas r)) k df))
           (categories (map (fun r : row => Operation r) df));
     coefficient_bars := map (fun c => (Feature c, Coefficient c)) (take 10 coef_df);
     rows_scatter :=
       map (fun op => (op, map (fun r : row => (CInt (Rows r), CInt (TotalGas r)))
                               (rows_of_operation op df)))
           (unique (map (fun r : row => Operation r) df)) |}.

Definition visualize_results (df : list row) (y_pred : list pyfloat)
           (coef_df : list coef_row) : M unit :=
  print [Lit (nl +:+ banner)];;
  print [Lit "Generating Visualizations"];;
  print [Lit (banner +:+ nl)];;
  write_file "gas_analysis.png" (savefig (build_figure df y_pred coef_df));;
  print [Lit "Saved visualization to: gas_analysis.png"].

(** ['name' in coef_df['Feature'].values] *)
Definition has_feature (name : string) (coef_df : list coef_row) : bool :=
  existsb (fun c => String.eqb (Feature c) name) coef_df.

(** [coef_df[coef_df['Feature'] == name]['Coefficient'].values[0]] *)
Definition first_coefficient (name : string) (coef_df : list coef_row) : exn + pyfloat :=
  match filter (fun c => Feature c = name) coef_df with
  | c :: _ => inr (Coefficient c)
  | [] => inl (IndexError "index 0 is out of bounds for axis 0 with size 0")
  end.

Definition coefficient_or_zero (name : string) (coef_df : list coef_row) : exn + pyfloat :=
  if has_feature name coef_df then first_coefficient name coef_df else inr zero.

(** The loop over [coef_df.iterrows()] filling [op_coefs]. *)
Definition operation_coefficients (coef_df : list coef_row) : gmap string pyfloat :=
  fold_left (fun op_coefs c =>
               if String.prefix "Op_" (Feature c)
               then <[remove_Op_ (Feature c) := Coefficient c]> op_coefs
               else op_coefs)
            coef_df ∅.

(** [op_coefs.get(name, 0)] *)
Definition get_or_zero (op_coefs : gmap string pyfloat) (name : string) : pyfloat :=
  default zero (op_coefs !! name).

Definition template_with_interaction
  (intercept row_coef col_coef interaction_coef filter_coef op_sum op_avg_p op_weighted_sum op_min op_max : string) : string :=
"
/**
 * Estimates gas cost for a JobManager job based on parameters
 * 
 * Model Accuracy: See analysis output for R² and MAPE
 * Model includes Rows × Columns interaction term for better accuracy
 * 
 * @param rows Number of rows in dataset
 * @param columns Number of columns in dataset
 * @param operation Operation type
 * @param filterBytes Approximate filter bytecode length
 * @returns Estimated total gas cost
 */
function estimateJobGas(
  rows: number,
  columns: number,
  operation: 'COUNT' | 'SUM' | 'AVG_P' | 'WEIGHTED_SUM' | 'MIN' | 'MAX',
  filterBytes: number
): number {
  // Base cost (intercept)
  let gas = " +:+ intercept +:+
";
  
  // Add per-row cost
  gas += rows * " +:+ row_coef +:+
";
  
  // Add per-column cost
  gas += columns * " +:+ col_coef +:+
";
  
  // Add row × column interaction (decoding cost scales with both)
  gas += (rows * columns) * " +:+ interaction_coef +:+
";
  
  // Add filter complexity cost
  gas += filterBytes * " +:+ filter_coef +:+
";
  
  // Add operation-specific costs (relative to COUNT baseline)
  const operationCosts = {
    'COUNT': 0,  // baseline
    'SUM': " +:+ op_sum +:+
",
    'AVG_P': " +:+ op_avg_p +:+
",
    'WEIGHTED_SUM': " +:+ op_weighted_sum +:+
",
    'MIN': " +:+ op_min +:+
",
    'MAX': " +:+ op_max +:+
",
  };
  
  gas += operationCosts[operation];
  
  return Math.round(gas);
}

// Example usage:
const estimatedGas = estimateJobGas(50, 15, 'SUM', 7);
console.log(`Estimated gas: ${estimatedGas.toLocaleString()}`);
".

Definition template_without_interaction
  (intercept row_coef col_coef filter_coef op_sum op_avg_p op_weighted_sum op_min op_max : string) : string :=
"
/**
 * Estimates gas cost for a JobManager job based on parameters
 * 
 * Model Accuracy: See analysis output for R² and MAPE
 * 
 * @param rows Number of rows in dataset
 * @param columns Number of columns in dataset
 * @param operation Operation type
 * @param filterBytes Approximate filter bytecode length
 * @returns Estimated total gas cost
 */
function estimateJobGas(
  rows: number,
  columns: number,
  operation: 'COUNT' | 'SUM' | 'AVG_P' | 'WEIGHTED_SUM' | 'MIN' | 'MAX',
  filterBytes: number
): number {
  // Base cost (intercept)
  let gas = " +:+ intercept +:+
";
  
  // Add per-row cost
  gas += rows * " +:+ row_coef +:+
";
  
  // Add per-column cost (decoding)
  gas += columns * " +:+ col_coef +:+
";
  
  // Add filter complexity cost
  gas += filterBytes * " +:+ filter_coef +:+
";
  
  // Add operation-specific costs (relative to COUNT baseline)
  const operationCosts = {
    'COUNT': 0,  // baseline
    'SUM': " +:+ op_sum +:+
",
    'AVG_P': " +:+ op_avg_p +:+
",
    'WEIGHTED_SUM': " +:+ op_weighted_sum +:+
",
    'MIN': " +:+ op_min +:+
",
    'MAX': " +:+ op_max +:+
",
  };
  
  gas += operationCosts[operation];
  
  return Math.round(gas);
}

// Example usage:
const estimatedGas = estimateJobGas(50, 15, 'SUM', 7);
console.log(`Estimated gas: ${estimatedGas.toLocaleString()}`);
".


(** The text assigned to [code]. *)
Definition estimator_code (model : linear_model) (coef_df : list coef_row) : exn + string :=
  let intercept := intercept_ model in
  row_coef ← coefficient_or_zero "Rows" coef_df;
  col_coef ← coefficient_or_zero "Columns" coef_df;
  filter_coef ← coefficient_or_zero "FilterBytes" coef_df;
  let has_interaction := has_feature "Rows_x_Columns" coef_df in
  interaction_coef ← (if has_interaction
                      then first_coefficient "Rows_x_Columns" coef_df
                      else inr zero);
  let op_coefs := operation_coefficients coef_df in
  let op := fun name => format_0f (get_or_zero op_coefs name) in
  mret (if has_interaction
        then template_with_interaction
               (format_0f intercept) (format_0f row_coef) (format_0f col_coef)
               (format_0f interaction_coef) (format_0f filter_coef)
               (op "SUM") (op "AVG_P") (op "WEIGHTED_SUM") (op "MIN") (op "MAX")
        else template_without_interaction
               (format_0f intercept) (format_0f row_coef) (format_0f col_coef)
               (format_0f filter_coef)
               (op "SUM") (op "AVG_P") (op "WEIGHTED_SUM") (op "MIN") (op "MAX")).

Definition generate_estimator_code (model : linear_model) (coef_df : list coef_row)
  : M unit :=
  print [Lit (nl +:+ banner)];;
  print [Lit "Gas Estimator Function (TypeScript)"];;
  print [Lit (banner +:+ nl)];;
  code ← lift (estimator_code model coef_df);
  print [Lit code];;
  write_file "estimateJobGas.ts" code;;
  print [Lit (nl +:+ "Saved estimator function to: estimateJobGas.ts")].

(** The body of the [try] block of [main]. *)
Definition run_analysis (csv_path : string) : M unit :=
  df ← load_and_prepare_data csv_path;
  analyze_basic_statistics df;;
  analyze_per_row_costs df;;
  '(model, X, y, y_pred, coef_df) ← build_regression_model df "TotalGas" true;
  print [Lit (nl +:+ nl +:+ "--- Analyzing PushRow Costs ---")];;
  build_regression_model df "PushRowTotal" true;;
  visualize_results df y_pred coef_df;;
  generate_estimator_code model coef_df;;
  print [Lit (nl +:+ banner)];;
  print [Lit "Analysis Complete!"];;
  print [Lit (banner +:+ nl)];;
  print [Lit "Generated files:"];;
  print [Lit "  - gas_analysis.png (visualizations)"];;
  print [Lit "  - estimateJobGas.ts (estimator function)"];;
  print [Lit (nl +:+ "Next steps:")];;
  print [Lit "  1. Review R² score (target: ≥0.60)"];;
  print [Lit "  2. Check MAPE (target: ≤40%)"];;
  print [Lit "  3. Use estimateJobGas.ts in your application"];;
  print [Lit "  4. Validate with holdout test cases"].

(** [main()]: the exit status of the process and the world it leaves. *)
Definition main (argv : list string) (w : world) : Z * world :=
  if (length argv <? 2)%nat then
    (1%Z, emit [Lit (nl +:+ "Example: python analyze_gas_results.py gas_benchmark_results.csv")]
            (emit [Lit "Usage: python analyze_gas_results.py <csv_file>"] w))
  else
    let csv_path := nth 1 argv "" in
    match run_analysis csv_path w with
    | (inr _, w') => (0%Z, w')
    | (inl (FileNotFoundError _), w') =>
        (1%Z, emit [Lit "Error: File '"; Lit csv_path; Lit "' not found"] w')
    | (inl e, w') =>
        (1%Z, emit_err [Raised e] (emit [Lit "Error: "; Raised e] w'))
    end.

End Pipeline.

(** ** What a stage returns, apart from what it prints *)

Section Summaries.

Context `{lib : Externals}.

(** The value (or the exception) of [build_regression_model]. *)
Definition fit_result (df : list row) (target : string) (include_interaction : bool)
  : exn + (linear_model * frame * list cell * list pyfloat * list coef_row) :=
  X ← feature_matrix df include_interaction;
  y ← column target df;
  model ← lr_fit X y;
  coef_df ← coefficient_table (map fst X) (coef_ model);
  mret (model, X, y, lr_predict model X, coef_df).

(** The lookup [per_row.loc['COUNT', 'mean']] of [analyze_per_row_costs]. *)
Definition baseline_result (df : list row) : exn + cell :=
  loc "COUNT" "mean"
      (groupby_agg (fun r : row => Operation r) (fun r => CFloat (PushRowAvg r))
                   [Mean; Std] df).

(** The table a load returns, for an input file whose text is [o]
    ([None]: no such file). *)
Definition loaded (o : option string) (path : string) : exn + list row :=
  match o with
  | None => inl (FileNotFoundError path)
  | Some text =>
      match parse_csv text with
      | inl e => inl e
      | inr raw => inr (map add_filter_bytes raw)
      end
  end.

(** The contents of the two output files (image, generated code) of a run
    on the table [df], or the exception that ends it. *)
Definition outcome_of_table (df : list row) : exn + (string * string) :=
  _ ← baseline_result df;
  '(model, X, y, y_pred, coef_df) ← fit_result df "TotalGas" true;
  _ ← fit_result df "PushRowTotal" true;
  code ← estimator_code model coef_df;
  mret (savefig (build_figure df y_pred coef_df), code).

Definition analysis_outcome (path : string) (o : option string) : exn + (string * string) :=
  df ← loaded o path; outcome_of_table df.



(** The pipeline with lines 355 to 357, the second fit, taken out; the
    comparison point for the effect of that fit. *)
Definition run_analysis_single_fit (csv_path : string) : M unit :=
  df ← load_and_prepare_data csv_path;
  analyze_basic_statistics df;;
  analyze_per_row_costs df;;
  '(model, X, y, y_pred, coef_df) ← build_regression_model df "TotalGas" true;
  visualize_results df y_pred coef_df;;
  generate_estimator_code model coef_df.

End Summaries.

(** Exit status, files written and files opened, read off an outcome. *)
Definition status {A : Type} (r : exn + A) : Z :=
  match r with
  | inr _ => 0%Z
  | inl _ => 1%Z
  end.

Definition completed {A : Type} (r : exn + A) : exn + unit :=
  match r with
  | inr _ => inr tt
  | inl e => inl e
  end.

Definition outputs (r : exn + (string * string)) : list (string * string) :=
  match r with
  | inr (png, code) => [("gas_analysis.png", png); ("estimateJobGas.ts", code)]
  | inl _ => []
  end.

Definition output_events (r : exn + (string * string)) : list io_event :=
  map (fun kv => OpenWrite (fst kv)) (outputs r).

Definition reads (path : string) (o : option string) : list io_event :=
  match o with
  | Some _ => [OpenRead path]
  | None => []
  end.

(** The same library with other implementations of the two metrics. *)
Definition with_metrics (lib : Externals)
           (r2 mape : list cell -> list pyfloat -> pyfloat) : Externals :=
  {| parse_csv := @parse_csv lib;
     series_mean := @series_mean lib;
     series_std := @series_std lib;
     lr_fit := @lr_fit lib;
     lr_predict := @lr_predict lib;
     r2_score := r2;
     mean_absolute_percentage_error := mape;
     fmul := @fmul lib;
     fdiv := @fdiv lib;
     savefig := @savefig lib |}.

(** [evolves writes events w w']: from [w] to [w'] the console has only
    grown, the diagnostic stream is untouched, and the files written and the
    files opened are exactly the listed ones. *)
Definition write_all (writes : list (string * string)) (fs : gmap string string)
  : gmap string string :=
  fold_left (fun m kv => <[fst kv := snd kv]> m) writes fs.

Definition evolves (writes : list (string * string)) (events : list io_event)
           (w w' : world) : Prop :=
  files w' = write_all writes (files w) /\
  io_log w' = io_log w ++ events /\
  stderr w' = stderr w /\
  exists lines, stdout w' = stdout w ++ lines.

(** ** The statements of the design document, as definitions *)

(** The lookup of the data model: none 0, simple 7, medium 15, complex 30,
    anything else missing. *)
Definition filter_bytes_of (label : option string) : option Z :=
  match label with
  | None => None
  | Some s =>
      if String.eqb s "none" then Some 0%Z
      else if String.eqb s "simple" then Some 7%Z
      else if String.eqb s "medium" then Some 15%Z
      else if String.eqb s "complex" then Some 30%Z
      else None
  end.

(** The Operation values that get an indicator column. *)
Definition indicator_labels (df : list row) : list string :=
  filter (fun v => v <> "COUNT") (categories (map (fun r : row => Operation r) df)).

Definition indicator (v : string) (df : list row) : list cell :=
  map (fun r : row => CBool (bool_decide (Operation r = Some v))) df.

(** The feature matrix as the design document describes it. *)
Definition described_feature_matrix (df : list row) (include_interaction : bool) : frame :=
  [ ("Rows", ints Rows df);
    ("Columns", ints Columns df);
    ("FilterBytes", map (fun r : row => int_or_nan (FilterBytes r)) df) ]
  ++ (if include_interaction
      then [("Rows_x_Columns",
             map (fun r : row => CInt (wrap_int64 (Rows r * Columns r))) df)]
      else [])
  ++ map (fun v => ("Op_" +:+ v, indicator v df)) (indicator_labels df).

(** The tables printed on the console, in order. *)
Definition printed_tables (lines : list (list piece)) : list grouped :=
  flat_map (fun line => flat_map (fun p => match p with
                                           | Grouped g => [g]
                                           | _ => []
                                           end) line) lines.

(** [g] has one line per distinct value of [key], holding the listed
    statistics of TotalGas over the rows of that value. *)
Definition describes `{Externals} (key : row -> option string) (fns : list agg_fn)
           (df : list row) (g : grouped) : Prop :=
  NoDup (map fst g) /\
  (forall k, k ∈ map fst g <-> Some k ∈ map key df) /\
  (forall k stats, (k, stats) ∈ g ->
     stats = map (fun f => (agg_name f,
                            aggregate f (group_values key (fun r => CInt (TotalGas r)) k df)))
                 fns).

(** The descriptive reporter as the design document states it: all four
    statistics for both groupings. *)
Definition reports_four_statistics_for_both `{Externals} (df : list row) : Prop :=
  forall w, exists lines by_operation by_complexity,
    stdout (snd (analyze_basic_statistics df w)) = stdout w ++ lines /\
    printed_tables lines = [by_operation; by_complexity] /\
    describes (fun r : row => Operation r) [Mean; Min; Max; Std] df by_operation /\
    describes (fun r : row => FilterComplexity r) [Mean; Min; Max; Std] df by_complexity.


(** The two variants of the generated text. *)
Definition with_interaction_variant (text : string) : Prop :=
  exists intercept row_coef col_coef interaction_coef filter_coef s a ws mn mx : pyfloat,
    text = template_with_interaction
             (format_0f intercept) (format_0f row_coef) (format_0f col_coef)
             (format_0f interaction_coef) (format_0f filter_coef)
             (format_0f s) (format_0f a) (format_0f ws) (format_0f mn) (format_0f mx).

Definition without_interaction_variant (text : string) : Prop :=
  exists intercept row_coef col_coef filter_coef s a ws mn mx : pyfloat,
    text = template_without_interaction
             (format_0f intercept) (format_0f row_coef) (format_0f col_coef)
             (format_0f filter_coef)
             (format_0f s) (format_0f a) (format_0f ws) (format_0f mn) (format_0f mx).

(** The product of rows and columns, which only the interaction line has. *)
Definition interaction_product : string := "(rows * columns)".

(** The order of the categories: Python's order on strings. *)
Definition before (a b : string) : Prop := String.compare a b = Lt.

(** The pattern that starts the product, foreign to every number. *)
Definition product_opening : string := "(rows".

(** [returns_in w c r writes events]: run in [w], the computation [c] ends
    with [r] and leaves a world that [evolves] from [w] as listed. *)
Definition returns_in {A : Type} (w : world) (c : M A) (r : exn + A)
           (writes : list (string * string)) (events : list io_event) : Prop :=
  exists w', c w = (r, w') /\ evolves writes events w w'.

Definition returns {A : Type} (c : M A) (r : exn + A)
           (writes : list (string * string)) (events : list io_event) : Prop :=
  forall w, returns_in w c r writes events.

(** The text of the input file named on the command line, if any. *)
Definition input_text (argv : list string) (w : world) : option string :=
  files w !! nth 1 argv "".

(** ** A small instance of the external routines

    Enough to run the pipeline inside Rocq on two input files. *)

Module Fixture.

Definition count_row : csv_record :=
  {| Operation := Some "COUNT"; FilterComplexity := Some "none";
     Rows := 10; Columns := 3; OpenJobGas := 100; PushRowTotal := Some 1000%Z;
     PushRowAvg := of_Z 100; FinalizeGas := 50; TotalGas := 1150 |}.

Definition sum_row : csv_record :=
  {| Operation := Some "SUM"; FilterComplexity := Some "simple";
     Rows := 20; Columns := 3; OpenJobGas := 100; PushRowTotal := Some 3000%Z;
     PushRowAvg := of_Z 150; FinalizeGas := 50; TotalGas := 3150 |}.

Definition max_row : csv_record :=
  {| Operation := Some "MAX"; FilterComplexity := Some "elaborate";
     Rows := 5; Columns := 2; OpenJobGas := 100; PushRowTotal := Some 600%Z;
     PushRowAvg := of_Z 120; FinalizeGas := 50; TotalGas := 750 |}.

Definition header : string :=
  "Operation,FilterComplexity,Rows,Columns,OpenJobGas,PushRowTotal,PushRowAvg,FinalizeGas,TotalGas".

Definition benchmark_csv : string :=
  header +:+ nl +:+ "COUNT,none,10,3,100,1000,100,50,1150" +:+ nl
         +:+ "SUM,simple,20,3,100,3000,150,50,3150" +:+ nl.

Definition no_count_csv : string :=
  header +:+ nl +:+ "SUM,simple,20,3,100,3000,150,50,3150" +:+ nl
         +:+ "MAX,elaborate,5,2,100,600,120,50,750" +:+ nl.

Definition first_or_nan (l : list cell) : pyfloat :=
  match l with
  | c :: _ => cell_float c
  | [] => FNaN
  end.

Definition routines : Externals :=
  {| parse_csv := fun text =>
       if String.eqb text benchmark_csv then inr [count_row; sum_row]
       else if String.eqb text no_count_csv then inr [sum_row; max_row]
       else inl (LibraryError "ParserError");
     series_mean := first_or_nan;
     series_std := fun _ => zero;
     lr_fit := fun X y =>
       inr {| intercept_ := first_or_nan y;
              coef_ := map (fun c => of_Z (Z.of_nat (String.length (fst c)))) X |};
     lr_predict := fun model X => [intercept_ model; intercept_ model];
     r2_score := fun _ _ => of_Z 1;
     mean_absolute_percentage_error := fun _ _ => zero;
     fmul := fun x _ => x;
     fdiv := fun x _ => x;
     savefig := fun fig => "PNG" |}.

Definition disk : gmap string string :=
  <["results.csv" := benchmark_csv]> (<["partial.csv" := no_count_csv]> ∅).

Definition start : world :=
  {| files := disk; stdout := []; stderr := []; io_log := [] |}.

Definition rerun : world :=
  {| files := <["estimateJobGas.ts" := "stale"]> disk;
     stdout := [[Lit "earlier output"]]; stderr := []; io_log := [OpenRead "results.csv"] |}.

Definition prepared : list row := map add_filter_bytes [count_row; sum_row].

Definition partial : list row := map add_filter_bytes [sum_row; max_row].

Definition coefficients : list coef_row :=
  [ {| Feature := "Rows"; Coefficient := of_Z 12; Impact := of_Z 12 |};
    {| Feature := "Op_SUM"; Coefficient := FFin false 7 (-1); Impact := FFin false 7 (-1) |} ].

(** The benchmark file with the PushRowTotal cell of the SUM line left
    empty, and routines whose fit validates its input as scikit-learn does:
    a NaN in the features or in the targets is a ValueError. *)
Definition gap_row : csv_record :=
  {| Operation := Some "SUM"; FilterComplexity := Some "simple";
     Rows := 20; Columns := 3; OpenJobGas := 100; PushRowTotal := None;
     PushRowAvg := of_Z 150; FinalizeGas := 50; TotalGas := 3150 |}.

Definition gap_csv : string :=
  header +:+ nl +:+ "COUNT,none,10,3,100,1000,100,50,1150" +:+ nl
         +:+ "SUM,simple,20,3,100,,150,50,3150" +:+ nl.

Definition has_nan (l : list cell) : bool :=
  existsb (fun c => is_nan (cell_float c)) l.

Definition validating_routines : Externals :=
  {| parse_csv := fun text =>
       if String.eqb text benchmark_csv then inr [count_row; sum_row]
       else if String.eqb text gap_csv then inr [count_row; gap_row]
       else inl (LibraryError "ParserError");
     series_mean := first_or_nan;
     series_std := fun _ => zero;
     lr_fit := fun X y =>
       if existsb (fun c => has_nan (snd c)) X
       then inl (ValueError "Input X contains NaN.")
       else if has_nan y then inl (ValueError "Input y contains NaN.")
       else inr {| intercept_ := first_or_nan y;
                   coef_ := map (fun c => of_Z (Z.of_nat (String.length (fst c)))) X |};
     lr_predict := fun model X => [intercept_ model; intercept_ model];
     r2_score := fun _ _ => of_Z 1;
     mean_absolute_percentage_error := fun _ _ => zero;
     fmul := fun x _ => x;
     fdiv := fun x _ => x;
     savefig := fun fig => "PNG" |}.

Definition gap_start : world :=
  {| files := <["gaps.csv" := gap_csv]> ∅; stdout := []; stderr := []; io_log := [] |}.

End Fixture.

(** Alphabets: [within alphabet s] when every character of [s] is one of
    [alphabet]; [apart alphabet p] when no character of [p] is. *)
Fixpoint mem (c : ascii) (s : string) : bool :=
  match s with
  | EmptyString => false
  | String c' s' => Ascii.eqb c c' || mem c s'
  end.

Fixpoint within (alphabet s : string) : bool :=
  match s with
  | EmptyString => true
  | String c s' => mem c alphabet && within alphabet s'
  end.

Fixpoint apart (alphabet p : string) : bool :=
  match p with
  | EmptyString => true
  | String c p' => negb (mem c alphabet) && apart alphabet p'
  end.

(** The characters [.0f] can produce. *)
Definition number_alphabet : string := "0123456789-infa".

(** ** Further notions used by the properties of the stages *)

(** The features the generator looks up by name, and the operation names it
    prints a line for. *)
Definition base_features : list string := ["Rows"; "Columns"; "FilterBytes"; "Rows_x_Columns"].
Definition printed_operations : list string := ["SUM"; "AVG_P"; "WEIGHTED_SUM"; "MIN"; "MAX"].

(** The rows of the coefficient table that the loop over [iterrows] files
    under the operation [name]. *)
Definition files_under (name : string) (c : coef_row) : Prop :=
  String.prefix "Op_" (Feature c) = true /\ remove_Op_ (Feature c) = name.

#[global] Instance files_under_dec name c : Decision (files_under name c).
Proof. unfold files_under. apply _. Defined.

(** The names of the columns of a frame whose cell in row [i] is [True]. *)
Definition true_at (i : nat) (col : string * list cell) : bool :=
  match snd col !! i with
  | Some (CBool true) => true
  | _ => false
  end.

Definition true_columns (i : nat) (X : list (string * list cell)) : list string :=
  map fst (filter (fun col => true_at i col = true) X).

(** One step of the loop over [iterrows]. *)
Definition file_row (op_coefs : gmap string pyfloat) (c : coef_row) : gmap string pyfloat :=
  if String.prefix "Op_" (Feature c)
  then <[remove_Op_ (Feature c) := Coefficient c]> op_coefs
  else op_coefs.

(** One row of the coefficient table, as [pd.DataFrame] builds it. *)
Definition coefficient_row (n : string) (c : pyfloat) : coef_row :=
  {| Feature := n; Coefficient := c; Impact := c |}.

(** [a] may stand before [b] in a table sorted by decreasing key, NaN last. *)
Definition may_precede (a b : pyfloat) : Prop := goes_first b a = false.

(** * Properties *)

(** ** Strings: prefixes, occurrences, holes *)

Section Strings.

Implicit Types p s x b f : string.

Lemma prefix_cons c p a s :
  String.prefix (String c p) (String a s) = (Ascii.eqb c a && String.prefix p s).
Proof.
  simpl. destruct (ascii_dec c a) as [->|Hne].
  - rewrite Ascii.eqb_refl. reflexivity.
  - apply Ascii.eqb_neq in Hne. rewrite Hne. reflexivity.
Qed.

Lemma prefix_append p : forall s, String.prefix p s = true <-> exists post, s = p +:+ post.
Proof.
  induction p as [|c p IH]; intros s.
  - split; [intros _; exists s; reflexivity | intros _; destruct s; reflexivity].
  - destruct s as [|a s].
    + split; [discriminate | intros [post H]; discriminate].
    + rewrite prefix_cons, andb_true_iff, Ascii.eqb_eq, IH. split.
      * intros [-> [post ->]]. exists post. reflexivity.
      * intros [post H]. simpl in H. injection H as -> ->. eauto.
Qed.

Lemma contains_occurs p : forall s, contains p s = true <-> occurs p s.
Proof.
  induction s as [|a s IH].
  - cbn [contains]. rewrite orb_false_r, prefix_append. split.
    + intros [post H]. exists "", post. exact H.
    + intros [pre [post H]]. destruct pre; [exists post; exact H | discriminate].
  - cbn [contains]. rewrite orb_true_iff, IH, prefix_append. split.
    + intros [[post H] | [pre [post H]]].
      * exists "", post. exact H.
      * exists (String a pre), post. simpl. rewrite H. reflexivity.
    + intros [pre [post H]]. destruct pre as [|c pre].
      * left. exists post. exact H.
      * right. simpl in H. injection H as _ ->. exists pre, post. reflexivity.
Qed.

Lemma contains_append_r p x : forall b, contains p b = true -> contains p (x +:+ b) = true.
Proof.
  induction x as [|a x IH]; intros b H; [exact H|].
  change (String a x +:+ b) with (String a (x +:+ b)).
  cbn [contains]. rewrite (IH _ H). apply orb_true_r.
Qed.

Lemma append_assoc x : forall s b, (x +:+ s) +:+ b = x +:+ (s +:+ b).
Proof.
  induction x as [|a x IH]; intros s b; [reflexivity|].
  change ((String a x +:+ s) +:+ b) with (String a ((x +:+ s) +:+ b)).
  rewrite IH. reflexivity.
Qed.

Lemma contains_append_l p b : forall x, contains p x = true -> contains p (x +:+ b) = true.
Proof.
  intros x H. apply contains_occurs in H. destruct H as [pre [post ->]].
  apply contains_occurs. exists pre, (post +:+ b).
  rewrite !append_assoc. reflexivity.
Qed.

(** A character foreign to the pattern stops every match that reaches it. *)
Lemma prefix_stopped d r : forall p x,
  mem d p = false -> String.prefix p (x +:+ String d r) = String.prefix p x.
Proof.
  induction p as [|c p IH]; intros x Hd.
  - destruct x; reflexivity.
  - simpl in Hd. apply orb_false_iff in Hd. destruct Hd as [Hdc Hd].
    destruct x as [|a x].
    + change (String.prefix (String c p) (String d r) = false).
      rewrite prefix_cons. rewrite Ascii.eqb_sym, Hdc. reflexivity.
    + change (String.prefix (String c p) (String a (x +:+ String d r))
              = String.prefix (String c p) (String a x)).
      rewrite !prefix_cons, (IH x Hd). reflexivity.
Qed.

Lemma contains_stopped p d r : forall x,
  mem d p = false ->
  contains p (x +:+ String d r) = contains p x || contains p (String d r).
Proof.
  induction x as [|a x IH]; intros Hd.
  - destruct p as [|c p]; [reflexivity|].
    change ("" +:+ String d r) with (String d r).
    simpl (contains (String c p) ""). reflexivity.
  - change (String a x +:+ String d r) with (String a (x +:+ String d r)).
    change (contains p (String a (x +:+ String d r)))
      with (String.prefix p (String a (x +:+ String d r)) || contains p (x +:+ String d r)).
    change (String a (x +:+ String d r)) with (String a x +:+ String d r).
    rewrite (prefix_stopped d r p (String a x) Hd), (IH Hd).
    change (contains p (String a x)) with (String.prefix p (String a x) || contains p x).
    rewrite !orb_assoc. reflexivity.
Qed.

Lemma contains_skips c p : forall f b,
  mem c f = false -> contains (String c p) (f +:+ b) = contains (String c p) b.
Proof.
  induction f as [|a f IH]; intros b Hc; [reflexivity|].
  simpl in Hc. apply orb_false_iff in Hc. destruct Hc as [Hca Hc].
  change (contains (String c p) (String a f +:+ b))
    with (String.prefix (String c p) (String a (f +:+ b)) || contains (String c p) (f +:+ b)).
  rewrite prefix_cons, Hca, (IH b Hc). reflexivity.
Qed.

Lemma apart_mem alphabet d : forall p,
  apart alphabet p = true -> mem d alphabet = true -> mem d p = false.
Proof.
  induction p as [|c p IH]; intros Hp Hd; [reflexivity|].
  simpl in Hp. apply andb_true_iff in Hp. destruct Hp as [Hc Hp].
  simpl. rewrite (IH Hp Hd), orb_false_r.
  destruct (Ascii.eqb d c) eqn:E; [|reflexivity].
  apply Ascii.eqb_eq in E. subst c. rewrite Hd in Hc. discriminate.
Qed.

Lemma within_mem alphabet c : forall f,
  within alphabet f = true -> mem c alphabet = false -> mem c f = false.
Proof.
  induction f as [|a f IH]; intros Hf Hc; [reflexivity|].
  simpl in Hf. apply andb_true_iff in Hf. destruct Hf as [Ha Hf].
  simpl. rewrite (IH Hf Hc), orb_false_r.
  destruct (Ascii.eqb c a) eqn:E; [|reflexivity].
  apply Ascii.eqb_eq in E. subst a. rewrite Ha in Hc. discriminate.
Qed.

(** A hole filled with characters foreign to the pattern cannot take part
    in an occurrence. *)
Lemma contains_hole alphabet p x f b :
  p <> "" -> apart alphabet p = true ->
  f <> "" -> within alphabet f = true ->
  contains p (x +:+ f +:+ b) = contains p x || contains p b.
Proof.
  intros Hp Hap Hf Hw.
  destruct f as [|d f]; [congruence|]. destruct p as [|c p]; [congruence|].
  simpl in Hw. apply andb_true_iff in Hw. destruct Hw as [Hd Hw].
  change (String d f +:+ b) with (String d (f +:+ b)).
  rewrite contains_stopped by (eapply apart_mem; eassumption).
  change (String d (f +:+ b)) with (String d f +:+ b).
  rewrite contains_skips; [reflexivity|].
  simpl in Hap. apply andb_true_iff in Hap. destruct Hap as [Hc _].
  apply negb_true_iff in Hc.
  apply (within_mem alphabet); [simpl; rewrite Hd, Hw; reflexivity | exact Hc].
Qed.

Lemma within_append alphabet s : forall b,
  within alphabet (s +:+ b) = within alphabet s && within alphabet b.
Proof.
  induction s as [|a s IH]; intros b; [reflexivity|].
  simpl. rewrite IH, andb_assoc. reflexivity.
Qed.

End Strings.

(** ** Formatting with [.0f] *)

Lemma digits_within (u : uint) : within number_alphabet (NilEmpty.string_of_uint u) = true.
Proof. induction u; simpl; try rewrite IHu; reflexivity. Qed.

Lemma format_0f_within (x : pyfloat) : within number_alphabet (format_0f x) = true.
Proof.
  destruct x as [|neg|neg m e]; [reflexivity | destruct neg; reflexivity |].
  unfold format_0f. rewrite within_append. apply andb_true_iff. split.
  - destruct neg; reflexivity.
  - unfold NilZero.string_of_uint.
    destruct (N.to_uint (round_half_even m e)); try apply digits_within. reflexivity.
Qed.

Lemma format_0f_nonempty (x : pyfloat) : format_0f x <> "".
Proof.
  destruct x as [|neg|neg m e]; [discriminate | destruct neg; discriminate |].
  unfold format_0f, NilZero.string_of_uint.
  destruct neg, (N.to_uint (round_half_even m e)); discriminate.
Qed.

Example format_0f_half_even :
  format_0f (FFin false 5 (-1)) = "2" /\ format_0f (FFin false 7 (-1)) = "4" /\
  format_0f (FFin true 1 (-2)) = "-0" /\ format_0f (of_Z (-1234)) = "-1234".
Proof. repeat split; reflexivity. Qed.

Example remove_Op_prefix :
  remove_Op_ "Op_WEIGHTED_SUM" = "WEIGHTED_SUM" /\ remove_Op_ "Op_Op_X" = "X".
Proof. split; reflexivity. Qed.

Example thresholds :
  PyFloat.ge (FFin false 6 (-1)) threshold_r2 = true /\
  PyFloat.ge (FFin false 1 (-1)) threshold_r2 = false /\
  PyFloat.le (of_Z 40) threshold_mape = true /\
  PyFloat.le (FFin false 81 (-1)) threshold_mape = false /\
  PyFloat.ge FNaN threshold_r2 = false.
Proof. repeat split; reflexivity. Qed.

(** ** The code generator *)

Lemma first_coefficient_present name coef_df :
  has_feature name coef_df = true -> exists x, first_coefficient name coef_df = inr x.
Proof.
  unfold has_feature, first_coefficient.
  induction coef_df as [|c rest IH]; intros H; [discriminate|].
  rewrite filter_cons. destruct (decide (Feature c = name)) as [_|Hne]; [eauto|].
  simpl in H. apply orb_true_iff in H. destruct H as [H|H]; [|exact (IH H)].
  apply String.eqb_eq in H. contradiction.
Qed.

Lemma coefficient_or_zero_total name coef_df :
  exists x, coefficient_or_zero name coef_df = inr x.
Proof.
  unfold coefficient_or_zero. destruct (has_feature name coef_df) eqn:E; [|eauto].
  exact (first_coefficient_present _ _ E).
Qed.

(** The generator never raises, and its text is an instance of the template
    chosen by the presence of the interaction feature. *)
Lemma estimator_code_variants model coef_df :
  exists text, estimator_code model coef_df = inr text /\
    if has_feature "Rows_x_Columns" coef_df
    then with_interaction_variant text
    else without_interaction_variant text.
Proof.
  unfold estimator_code.
  destruct (coefficient_or_zero_total "Rows" coef_df) as [r ->].
  destruct (coefficient_or_zero_total "Columns" coef_df) as [c ->].
  destruct (coefficient_or_zero_total "FilterBytes" coef_df) as [f ->].
  destruct (has_feature "Rows_x_Columns" coef_df) eqn:E.
  - destruct (first_coefficient_present _ _ E) as [x ->].
    eexists. split; [reflexivity|]. unfold with_interaction_variant. eauto 12.
  - eexists. split; [reflexivity|]. unfold without_interaction_variant. eauto 12.
Qed.

Lemma product_opening_prefix s :
  contains interaction_product s = true -> contains product_opening s = true.
Proof.
  rewrite !contains_occurs. intros [pre [post ->]].
  exists pre, (" * columns)" +:+ post).
  change interaction_product with (product_opening +:+ " * columns)").
  rewrite append_assoc. reflexivity.
Qed.

Ltac fill_hole :=
  rewrite (contains_hole number_alphabet product_opening)
    by first [ discriminate | reflexivity | apply format_0f_nonempty | apply format_0f_within ].

Lemma without_interaction_no_product text :
  without_interaction_variant text -> contains interaction_product text = false.
Proof.
  intros (i & r & c & f & s & a & ws & mn & mx & ->).
  destruct (contains interaction_product _) eqn:E; [|reflexivity].
  apply product_opening_prefix in E. revert E.
  unfold template_without_interaction.
  repeat fill_hole.
  vm_compute. discriminate.
Qed.

Lemma with_interaction_has_product text :
  with_interaction_variant text -> contains interaction_product text = true.
Proof.
  intros (i & r & c & x & f & s & a & ws & mn & mx & ->).
  unfold template_with_interaction.
  do 6 apply contains_append_r. apply contains_append_l.
  vm_compute. reflexivity.
Qed.

(** ** How the world evolves under the stages *)

Lemma evolves_refl w : evolves [] [] w w.
Proof.
  unfold evolves. rewrite app_nil_r. repeat split; try reflexivity.
  exists []. rewrite app_nil_r. reflexivity.
Qed.

Lemma evolves_trans ws1 ev1 ws2 ev2 w w1 w2 :
  evolves ws1 ev1 w w1 -> evolves ws2 ev2 w1 w2 ->
  evolves (ws1 ++ ws2) (ev1 ++ ev2) w w2.
Proof.
  intros (Hf1 & Hi1 & He1 & l1 & Ho1) (Hf2 & Hi2 & He2 & l2 & Ho2).
  unfold evolves, write_all in *. rewrite fold_left_app, <- Hf1, Hf2, Hi2, Hi1, He2, He1.
  rewrite app_assoc. repeat split; try reflexivity.
  exists (l1 ++ l2). rewrite Ho2, Ho1, app_assoc. reflexivity.
Qed.

Section Returns.

Context {A B : Type}.

Lemma returns_ret (a : A) : returns (mret a) (inr a) [] [].
Proof. intros w. exists w. split; [reflexivity | apply evolves_refl]. Qed.

Lemma returns_raise (e : exn) : returns (@raise A e) (inl e) [] [].
Proof. intros w. exists w. split; [reflexivity | apply evolves_refl]. Qed.

Lemma returns_lift (r : exn + A) : returns (lift r) r [] [].
Proof. destruct r; [apply returns_raise | apply returns_ret]. Qed.

Lemma returns_in_bind w (c : M A) (f : A -> M B) a r ws1 ev1 ws2 ev2 :
  returns_in w c (inr a) ws1 ev1 -> returns (f a) r ws2 ev2 ->
  returns_in w (c ≫= f) r (ws1 ++ ws2) (ev1 ++ ev2).
Proof.
  intros (w1 & Hc & H1) Hf. destruct (Hf w1) as (w2 & Hfa & H2).
  exists w2. split; [|eapply evolves_trans; eassumption].
  unfold mbind, M_bind. rewrite Hc. exact Hfa.
Qed.

Lemma returns_in_bind_raised w (c : M A) (f : A -> M B) e ws ev :
  returns_in w c (inl e) ws ev -> returns_in w (c ≫= f) (inl e) ws ev.
Proof.
  intros (w1 & Hc & H1). exists w1. split; [|exact H1].
  unfold mbind, M_bind. rewrite Hc. reflexivity.
Qed.

Lemma returns_bind (c : M A) (f : A -> M B) a r ws1 ev1 ws2 ev2 :
  returns c (inr a) ws1 ev1 -> returns (f a) r ws2 ev2 ->
  returns (c ≫= f) r (ws1 ++ ws2) (ev1 ++ ev2).
Proof. intros Hc Hf w. eapply returns_in_bind; [apply Hc | exact Hf]. Qed.

Lemma returns_bind_raised (c : M A) (f : A -> M B) e ws ev :
  returns c (inl e) ws ev -> returns (c ≫= f) (inl e) ws ev.
Proof. intros Hc w. apply returns_in_bind_raised, Hc. Qed.

End Returns.

Lemma exn_bind_inr {A B : Type} (a : A) (f : A -> exn + B) : (inr a ≫= f) = f a.
Proof. reflexivity. Qed.

Lemma exn_bind_inl {A B : Type} (e : exn) (f : A -> exn + B) : (inl e ≫= f) = inl e.
Proof. reflexivity. Qed.

Lemma returns_print line : returns (print line) (inr tt) [] [].
Proof.
  intros w. exists (emit line w). split; [reflexivity|].
  unfold evolves. simpl. rewrite app_nil_r. repeat split. exists [line]. reflexivity.
Qed.

Lemma returns_write path text :
  returns (write_file path text) (inr tt) [(path, text)] [OpenWrite path].
Proof.
  intros w. eexists. split; [reflexivity|].
  unfold evolves. simpl. repeat split. exists []. rewrite app_nil_r. reflexivity.
Qed.

(** A print, or a choice between two prints, in front of the rest. *)
Lemma returns_after_print {B : Type} line (k : M B) r ws ev :
  returns k r ws ev -> returns (print line;; k) r ws ev.
Proof. intros Hk. exact (returns_bind (print line) (fun _ => k) tt r [] [] ws ev (returns_print line) Hk). Qed.

Lemma returns_after_choice {B : Type} (b : bool) l1 l2 (k : M B) r ws ev :
  returns k r ws ev -> returns ((if b then print l1 else print l2);; k) r ws ev.
Proof.
  intros Hk.
  refine (returns_bind _ (fun _ => k) tt r [] [] ws ev _ Hk).
  destruct b; apply returns_print.
Qed.

Lemma returns_after_lift {A B : Type} (x : exn + A) (f : A -> M B) r ws ev :
  (forall a, x = inr a -> returns (f a) r ws ev) ->
  (forall e, x = inl e -> r = inl e /\ ws = [] /\ ev = []) ->
  returns (lift x ≫= f) r ws ev.
Proof.
  intros Hok Herr. destruct x as [e|a].
  - destruct (Herr e eq_refl) as (-> & -> & ->).
    apply returns_bind_raised, returns_raise.
  - exact (returns_bind (lift (inr a)) f a r [] [] ws ev (returns_ret a) (Hok a eq_refl)).
Qed.

Ltac past_prints :=
  repeat lazymatch goal with
         | |- returns (print _ ≫= _) _ _ _ => apply returns_after_print
         | |- returns ((if _ then print _ else print _) ≫= _) _ _ _ =>
             apply returns_after_choice
         end.

Section Stages.

Context `{lib : Externals}.

Lemma analyze_basic_statistics_returns df :
  returns (analyze_basic_statistics df) (inr tt) [] [].
Proof.
  unfold analyze_basic_statistics. cbv zeta. past_prints. apply returns_print.
Qed.

Lemma analyze_per_row_costs_returns df :
  returns (analyze_per_row_costs df)
          (match baseline_result df with inl e => inl e | inr _ => inr tt end) [] [].
Proof.
  unfold analyze_per_row_costs, baseline_result. cbv zeta. past_prints.
  apply returns_after_lift.
  - intros a ->. past_prints. apply returns_print.
  - intros e ->. auto.
Qed.

Lemma build_regression_model_returns df target include_interaction :
  returns (build_regression_model df target include_interaction)
          (fit_result df target include_interaction) [] [].
Proof.
  unfold build_regression_model, fit_result. past_prints.
  refine (returns_bind _ _ tt _ [] [] [] [] _ _).
  { destruct include_interaction; [apply returns_print | apply returns_ret]. }
  past_prints.
  apply returns_after_lift; [intros X -> | intros e ->; auto].
  rewrite exn_bind_inr.
  apply returns_after_lift; [intros y -> | intros e ->; auto].
  rewrite exn_bind_inr.
  apply returns_after_lift; [intros model -> | intros e ->; auto].
  rewrite exn_bind_inr. cbv zeta. past_prints.
  apply returns_after_lift; [intros coef_df -> | intros e ->; auto].
  past_prints. apply returns_ret.
Qed.

Lemma visualize_results_returns df y_pred coef_df :
  returns (visualize_results df y_pred coef_df) (inr tt)
          [("gas_analysis.png", savefig (build_figure df y_pred coef_df))]
          [OpenWrite "gas_analysis.png"].
Proof.
  unfold visualize_results. past_prints.
  exact (returns_bind _ _ tt _ _ _ [] [] (returns_write _ _) (returns_print _)).
Qed.

Lemma generate_estimator_code_returns model coef_df code :
  estimator_code model coef_df = inr code ->
  returns (generate_estimator_code model coef_df) (inr tt)
          [("estimateJobGas.ts", code)] [OpenWrite "estimateJobGas.ts"].
Proof.
  intros Hcode. unfold generate_estimator_code. past_prints. rewrite Hcode.
  refine (returns_bind _ _ code _ [] [] _ _ (returns_ret code) _). past_prints.
  exact (returns_bind _ _ tt _ _ _ [] [] (returns_write _ _) (returns_print _)).
Qed.

Lemma load_and_prepare_data_returns path w :
  returns_in w (load_and_prepare_data path) (loaded (files w !! path) path) []
             (reads path (files w !! path)).
Proof.
  unfold load_and_prepare_data, loaded, reads, returns_in, evolves.
  unfold mbind, M_bind, print, read_csv, mret, M_ret. simpl.
  destruct (files w !! path) as [text|]; simpl.
  - destruct (parse_csv text) as [e|raw]; simpl;
      (eexists; split; [reflexivity|]; simpl; repeat split;
       rewrite <- ?app_assoc; eexists; reflexivity).
  - eexists; split; [reflexivity|]; simpl. rewrite app_nil_r. repeat split.
    rewrite <- ?app_assoc. eexists. reflexivity.
Qed.

Lemma pipeline_tail_returns df :
  returns (analyze_basic_statistics df;;
           analyze_per_row_costs df;;
           '(model, X, y, y_pred, coef_df) ← build_regression_model df "TotalGas" true;
           print [Lit (nl +:+ nl +:+ "--- Analyzing PushRow Costs ---")];;
           build_regression_model df "PushRowTotal" true;;
           visualize_results df y_pred coef_df;;
           generate_estimator_code model coef_df;;
           print [Lit (nl +:+ banner)];;
           print [Lit "Analysis Complete!"];;
           print [Lit (banner +:+ nl)];;
           print [Lit "Generated files:"];;
           print [Lit "  - gas_analysis.png (visualizations)"];;
           print [Lit "  - estimateJobGas.ts (estimator function)"];;
           print [Lit (nl +:+ "Next steps:")];;
           print [Lit "  1. Review R² score (target: ≥0.60)"];;
           print [Lit "  2. Check MAPE (target: ≤40%)"];;
           print [Lit "  3. Use estimateJobGas.ts in your application"];;
           print [Lit "  4. Validate with holdout test cases"])
          (completed (outcome_of_table df)) (outputs (outcome_of_table df))
          (output_events (outcome_of_table df)).
Proof.
  unfold outcome_of_table.
  refine (returns_bind _ _ tt _ [] [] _ _ (analyze_basic_statistics_returns df) _).
  pose proof (analyze_per_row_costs_returns df) as Hrow.
  destruct (baseline_result df) as [e|base]; [exact (returns_bind_raised _ _ _ _ _ Hrow)|].
  rewrite !exn_bind_inr.
  refine (returns_bind _ _ tt _ [] [] _ _ Hrow _). clear Hrow.
  pose proof (build_regression_model_returns df "TotalGas" true) as Hfit.
  destruct (fit_result df "TotalGas" true) as [e|[[[[model X] y] y_pred] coef_df]];
    [exact (returns_bind_raised _ _ _ _ _ Hfit)|].
  rewrite !exn_bind_inr. cbv beta iota.
  refine (returns_bind _ _ (model, X, y, y_pred, coef_df) _ [] [] _ _ Hfit _). clear Hfit.
  past_prints.
  pose proof (build_regression_model_returns df "PushRowTotal" true) as Hfit.
  destruct (fit_result df "PushRowTotal" true) as [e|second];
    [exact (returns_bind_raised _ _ _ _ _ Hfit)|].
  rewrite !exn_bind_inr.
  refine (returns_bind _ _ second _ [] [] _ _ Hfit _). clear Hfit.
  destruct (estimator_code_variants model coef_df) as [code [Hcode _]].
  rewrite Hcode, !exn_bind_inr.
  refine (returns_bind _ _ tt _ [_] [_] [_] [_] (visualize_results_returns _ _ _) _).
  refine (returns_bind _ _ tt _ [_] [_] [] [] (generate_estimator_code_returns _ _ _ Hcode) _).
  past_prints. apply returns_print.
Qed.


Lemma run_analysis_returns path w :
  returns_in w (run_analysis path)
             (completed (analysis_outcome path (files w !! path)))
             (outputs (analysis_outcome path (files w !! path)))
             (reads path (files w !! path)
              ++ output_events (analysis_outcome path (files w !! path))).
Proof.
  unfold run_analysis, analysis_outcome.
  pose proof (load_and_prepare_data_returns path w) as Hload.
  destruct (loaded (files w !! path) path) as [e|df].
  - rewrite exn_bind_inl. simpl. rewrite app_nil_r.
    exact (returns_in_bind_raised _ _ _ _ _ _ Hload).
  - rewrite exn_bind_inr.
    exact (returns_in_bind _ _ _ df _ [] _ _ _ Hload (pipeline_tail_returns df)).
Qed.


End Stages.

(** ** Categories: sorted, without repetition, exactly the labels present *)

Lemma ascii_compare_lt_trans a b c :
  Ascii.compare a b = Lt -> Ascii.compare b c = Lt -> Ascii.compare a c = Lt.
Proof. unfold Ascii.compare. rewrite !N.compare_lt_iff. lia. Qed.

Lemma string_compare_lt_trans : forall a b c : string,
  String.compare a b = Lt -> String.compare b c = Lt -> String.compare a c = Lt.
Proof.
  induction a as [|x a IH]; intros [|y b] [|z c]; simpl; try congruence.
  destruct (Ascii.compare x y) eqn:Exy; try discriminate;
    destruct (Ascii.compare y z) eqn:Eyz; try discriminate; intros Hab Hbc.
  - apply Ascii.compare_eq_iff in Exy, Eyz. subst.
    assert (Ascii.compare z z = Eq) as -> by (unfold Ascii.compare; apply N.compare_refl).
    eauto.
  - apply Ascii.compare_eq_iff in Exy. subst. rewrite Eyz. reflexivity.
  - apply Ascii.compare_eq_iff in Eyz. subst. rewrite Exy. reflexivity.
  - rewrite (ascii_compare_lt_trans _ _ _ Exy Eyz). reflexivity.
Qed.

Lemma string_compare_refl (a : string) : String.compare a a = Eq.
Proof.
  induction a as [|x a IH]; [reflexivity|]. simpl.
  assert (Ascii.compare x x = Eq) as -> by (unfold Ascii.compare; apply N.compare_refl).
  exact IH.
Qed.

Lemma elem_of_insert_label s x : forall l, x ∈ insert_label s l <-> x = s \/ x ∈ l.
Proof.
  induction l as [|y l IH]; simpl.
  - rewrite list_elem_of_singleton, elem_of_nil. tauto.
  - destruct (String.compare s y) eqn:E.
    + apply String.compare_eq_iff in E. subst. rewrite elem_of_cons. tauto.
    + rewrite elem_of_cons. tauto.
    + rewrite !elem_of_cons, IH. tauto.
Qed.

Lemma insert_label_sorted s : forall l,
  StronglySorted before l -> StronglySorted before (insert_label s l).
Proof.
  induction l as [|y l IH]; intros Hl; simpl.
  - repeat constructor.
  - destruct (String.compare s y) eqn:E; [exact Hl | |].
    + constructor; [exact Hl|]. inversion_clear Hl as [|? ? _ Hy].
      constructor; [exact E|].
      eapply Forall_impl; [exact Hy|]. intros z Hz.
      exact (string_compare_lt_trans _ _ _ E Hz).
    + inversion_clear Hl as [|? ? Hs Hy]. constructor; [exact (IH Hs)|].
      apply Forall_forall. intros z Hz. apply elem_of_insert_label in Hz.
      destruct Hz as [->|Hz].
      * unfold before. rewrite String.compare_antisym, E. reflexivity.
      * rewrite Forall_forall in Hy. exact (Hy z Hz).
Qed.

Lemma categories_sorted labels : StronglySorted before (categories labels).
Proof.
  induction labels as [|[s|] labels IH]; simpl.
  - constructor.
  - apply insert_label_sorted, IH.
  - exact IH.
Qed.

Lemma sorted_NoDup (l : list string) : StronglySorted before l -> NoDup l.
Proof.
  induction 1 as [|a l Hl IH Ha]; constructor; [|exact IH].
  intros Hin. rewrite Forall_forall in Ha. specialize (Ha a Hin).
  unfold before in Ha. rewrite string_compare_refl in Ha. discriminate.
Qed.

Lemma categories_NoDup labels : NoDup (categories labels).
Proof. apply sorted_NoDup, categories_sorted. Qed.

Lemma elem_of_categories x labels : x ∈ categories labels <-> Some x ∈ labels.
Proof.
  induction labels as [|[s|] labels IH]; simpl.
  - rewrite !elem_of_nil. tauto.
  - rewrite elem_of_insert_label, IH, elem_of_cons. split.
    + intros [->|H]; auto.
    + intros [H|H]; [injection H as ->|]; auto.
  - rewrite IH, elem_of_cons. split; [auto | intros [H|H]; [discriminate | exact H]].
Qed.

Example categories_sorts :
  categories [Some "SUM"; None; Some "COUNT"; Some "SUM"; Some "AVG_P"]
  = ["AVG_P"; "COUNT"; "SUM"].
Proof. reflexivity. Qed.

(** ** The loader *)

Lemma map_label_lookup label : map_label filter_bytecode_map label = filter_bytes_of label.
Proof.
  destruct label as [s|]; [|reflexivity].
  unfold map_label, filter_bytes_of, filter_bytecode_map. simpl list_to_map.
  rewrite !lookup_insert, lookup_empty.
  repeat (case_decide as Hs;
          [subst s; reflexivity
          | apply not_eq_sym in Hs; apply String.eqb_neq in Hs; rewrite Hs; clear Hs]).
  reflexivity.
Qed.

Lemma load_and_prepare_data_table `{Externals} csv_path w df w' :
  load_and_prepare_data csv_path w = (inr df, w') ->
  exists text raw, files w !! csv_path = Some text /\ parse_csv text = inr raw /\
                   df = map add_filter_bytes raw.
Proof.
  intros Hload.
  destruct (load_and_prepare_data_returns csv_path w) as (w1 & Hrun & _).
  rewrite Hrun in Hload. injection Hload as Hdf _. unfold loaded in Hdf.
  destruct (files w !! csv_path) as [text|]; [|discriminate].
  destruct (parse_csv text) as [e|raw] eqn:Hp; [discriminate|].
  injection Hdf as <-. eauto.
Qed.

(** C3. In every row of a loaded table, FilterBytes is the value the fixed
    lookup gives for the row's FilterComplexity label: none 0, simple 7,
    medium 15, complex 30, and missing (NaN) for every other label; rows
    with the same label therefore have the same FilterBytes. *)
Theorem filter_bytes_is_fixed_lookup `{Externals} csv_path w df w' :
  load_and_prepare_data csv_path w = (inr df, w') ->
  forall r : row, r ∈ df ->
    FilterBytes r = filter_bytes_of (FilterComplexity r) /\
    (FilterComplexity r = Some "none" -> FilterBytes r = Some 0%Z) /\
    (FilterComplexity r = Some "simple" -> FilterBytes r = Some 7%Z) /\
    (FilterComplexity r = Some "medium" -> FilterBytes r = Some 15%Z) /\
    (FilterComplexity r = Some "complex" -> FilterBytes r = Some 30%Z) /\
    (FilterComplexity r ∉ [Some "none"; Some "simple"; Some "medium"; Some "complex"] ->
     FilterBytes r = None) /\
    (forall r' : row, r' ∈ df -> FilterComplexity r' = FilterComplexity r ->
                FilterBytes r' = FilterBytes r).
Proof.
  intros Hload.
  destruct (load_and_prepare_data_table _ _ _ _ Hload) as (text & raw & _ & _ & ->).
  assert (Hall : forall r, r ∈ map add_filter_bytes raw ->
                           FilterBytes r = filter_bytes_of (FilterComplexity r)).
  { intros r Hr. apply list_elem_of_fmap in Hr. destruct Hr as (r0 & -> & _).
    apply map_label_lookup. }
  intros r Hr. pose proof (Hall r Hr) as Hfb.
  repeat split; try (intros Hl; rewrite Hfb, Hl; reflexivity).
  - exact Hfb.
  - intros Hout. rewrite Hfb. destruct (FilterComplexity r) as [s|]; [|reflexivity].
    unfold filter_bytes_of. rewrite !not_elem_of_cons in Hout.
    destruct Hout as (H0 & H1 & H2 & H3 & _).
    destruct (String.eqb_spec s "none") as [->|_]; [congruence|].
    destruct (String.eqb_spec s "simple") as [->|_]; [congruence|].
    destruct (String.eqb_spec s "medium") as [->|_]; [congruence|].
    destruct (String.eqb_spec s "complex") as [->|_]; [congruence|].
    reflexivity.
  - intros r' Hr' Hsame. rewrite Hfb, (Hall r' Hr'), Hsame. reflexivity.
Qed.

Lemma filter_bytes_is_fixed_lookup_witness :
  FilterBytes (add_filter_bytes Fixture.max_row) = None /\
  FilterBytes (add_filter_bytes Fixture.sum_row) = Some 7%Z.
Proof.
  destruct (filter_bytes_is_fixed_lookup (H := Fixture.routines) "partial.csv" Fixture.start
              Fixture.partial
              (snd (@load_and_prepare_data Fixture.routines "partial.csv" Fixture.start))
              ltac:(vm_compute; reflexivity)
              (add_filter_bytes Fixture.max_row) ltac:(vm_compute; right; left))
    as (_ & _ & _ & _ & _ & Hother & _).
  destruct (filter_bytes_is_fixed_lookup (H := Fixture.routines) "partial.csv" Fixture.start
              Fixture.partial
              (snd (@load_and_prepare_data Fixture.routines "partial.csv" Fixture.start))
              ltac:(vm_compute; reflexivity)
              (add_filter_bytes Fixture.sum_row) ltac:(vm_compute; left))
    as (_ & _ & Hsimple & _).
  split; [apply Hother | apply Hsimple; reflexivity].
  repeat (apply not_elem_of_cons; split; [discriminate|]). apply not_elem_of_nil.
Defined.

(** ** The feature matrix *)

Lemma dummies_has_column v labels :
  has_column ("Op_" +:+ v) (get_dummies labels "Op") = bool_decide (Some v ∈ labels).
Proof.
  unfold has_column, get_dummies.
  destruct (bool_decide_reflect (Some v ∈ labels)) as [Hin|Hout].
  - apply existsb_exists. apply elem_of_categories in Hin.
    eexists. split; [apply in_map, list_elem_of_In, Hin|].
    apply String.eqb_refl.
  - apply not_true_iff_false. intros Hex. apply existsb_exists in Hex.
    destruct Hex as (c & Hc & Heq). apply in_map_iff in Hc.
    destruct Hc as (v' & <- & Hv'). apply String.eqb_eq in Heq.
    change (String "O" (String "p" (String "_" v')) = String "O" (String "p" (String "_" v)))
      in Heq.
    injection Heq as Heq. subst v'.
    apply Hout, elem_of_categories, list_elem_of_In, Hv'.
Qed.

Lemma dummies_without_count labels :
  filter (fun c : string * list cell => fst c <> "Op_COUNT") (get_dummies labels "Op")
  = map (fun v => ("Op_" +:+ v, map (fun o => CBool (bool_decide (o = Some v))) labels))
        (filter (fun v => v <> "COUNT") (categories labels)).
Proof.
  unfold get_dummies, frame. induction (categories labels) as [|v l IH]; [reflexivity|].
  rewrite map_cons, (filter_cons (fun v => v <> "COUNT")).
  rewrite (filter_cons (fun c : string * list cell => fst c <> "Op_COUNT")), IH.
  destruct (decide (v <> "COUNT")) as [Hv|Hv];
    destruct (decide (fst ("Op" +:+ "_" +:+ v,
                           map (fun o => CBool (bool_decide (o = Some v))) labels)
                      <> "Op_COUNT")) as [Hc|Hc]; try reflexivity.
  - exfalso. apply Hc. intros Heq. apply Hv.
    change (String "O" (String "p" (String "_" v)) = String "O" (String "p" (String "_" "COUNT")))
      in Heq.
    injection Heq as Heq. exact Heq.
  - exfalso. apply Hv. intros ->. apply Hc. reflexivity.
Qed.

Lemma operations_of_loaded (raw : list csv_record) :
  map (fun r : row => Operation r) (map add_filter_bytes raw) = map Operation raw.
Proof. rewrite map_map. reflexivity. Qed.

(** Lines 74 to 84 build the described matrix when a COUNT row is there, and
    raise on the drop of [Op_COUNT] otherwise. *)
Lemma feature_matrix_described df include_interaction :
  feature_matrix df include_interaction =
  if bool_decide (Some "COUNT" ∈ map (fun r : row => Operation r) df)
  then inr (described_feature_matrix df include_interaction)
  else inl (KeyError "['Op_COUNT'] not found in axis").
Proof.
  unfold feature_matrix.
  change (select ["Rows"; "Columns"; "FilterBytes"] df)
    with (@inr exn frame [ ("Rows", ints Rows df); ("Columns", ints Columns df);
                           ("FilterBytes", map (fun r : row => int_or_nan (FilterBytes r)) df) ]).
  rewrite exn_bind_inr. unfold drop.
  rewrite (dummies_has_column "COUNT").
  destruct (bool_decide (Some "COUNT" ∈ map (fun r : row => Operation r) df)); [|reflexivity].
  rewrite exn_bind_inr, dummies_without_count.
  unfold described_feature_matrix, concat, indicator_labels, indicator.
  rewrite (map_ext _ (fun v => ("Op_" +:+ v,
                                map (fun r : row => CBool (bool_decide (Operation r = Some v))) df)))
    by (intros v; rewrite map_map; reflexivity).
  destruct include_interaction; reflexivity.
Qed.

Lemma indicator_labels_spec df v :
  v ∈ indicator_labels df <->
  Some v ∈ map (fun r : row => Operation r) df /\ v <> "COUNT".
Proof.
  unfold indicator_labels. rewrite list_elem_of_filter, elem_of_categories. tauto.
Qed.




Example feature_matrix_of_fixture :
  feature_matrix Fixture.prepared true =
  inr [ ("Rows", [CInt 10; CInt 20]); ("Columns", [CInt 3; CInt 3]);
        ("FilterBytes", [CInt 0; CInt 7]); ("Rows_x_Columns", [CInt 30; CInt 60]);
        ("Op_SUM", [CBool false; CBool true]) ].
Proof. vm_compute. reflexivity. Qed.

(** ** The whole run *)

Section Runs.

Context `{lib : Externals}.

Lemma write_all_outputs (o : exn + (string * string)) (fs : gmap string string) :
  write_all (outputs o) fs =
  match o with
  | inr (png, code) => <["estimateJobGas.ts" := code]> (<["gas_analysis.png" := png]> fs)
  | inl _ => fs
  end.
Proof. destruct o as [e|[png code]]; reflexivity. Qed.

(** [main] with a path on the command line: exit status, files and the log
    of opened files are those of the outcome. *)
Lemma main_runs prog path rest w :
  exists w', main (prog :: path :: rest) w
             = (status (analysis_outcome path (files w !! path)), w') /\
    files w' = write_all (outputs (analysis_outcome path (files w !! path))) (files w) /\
    io_log w' = io_log w ++ reads path (files w !! path)
                ++ output_events (analysis_outcome path (files w !! path)) /\
    exists lines, stdout w' = stdout w ++ lines.
Proof.
  unfold main. change (length (prog :: path :: rest) <? 2)%nat with false.
  change (nth 1 (prog :: path :: rest) "") with path. cbv iota zeta.
  destruct (run_analysis_returns path w) as (w1 & Hrun & Hf & Hi & He & lines & Ho).
  rewrite Hrun.
  destruct (analysis_outcome path (files w !! path)) as [e|[png code]]; simpl completed.
  - destruct e; eexists; (split; [reflexivity|]); simpl; rewrite Hf, Hi, Ho;
      (repeat split; rewrite <- ?app_assoc; eexists; reflexivity).
  - eexists. split; [reflexivity|]. rewrite Hf, Hi, Ho. repeat split. eauto.
Qed.

Lemma main_usage argv w :
  (length argv < 2)%nat ->
  main argv w =
  (1%Z, {| files := files w;
           stdout := stdout w ++
             [ [Lit "Usage: python analyze_gas_results.py <csv_file>"];
               [Lit (nl +:+ "Example: python analyze_gas_results.py gas_benchmark_results.csv")] ];
           stderr := stderr w;
           io_log := io_log w |}).
Proof.
  intros Hlen. unfold main.
  destruct (Nat.ltb_spec (length argv) 2) as [_|Hge]; [|lia].
  unfold emit. simpl. rewrite <- app_assoc. reflexivity.
Qed.

Lemma baseline_missing df :
  Some "COUNT" ∉ map (fun r : row => Operation r) df ->
  baseline_result df = inl (KeyError "COUNT").
Proof.
  intros Hout. unfold baseline_result, loc, groupby_agg.
  destruct (list_find _ _) as [[i [k stats]]|] eqn:Hfind; [|reflexivity].
  exfalso. apply list_find_Some in Hfind. destruct Hfind as (Hi & Hk & _).
  simpl in Hk. subst k. apply list_elem_of_lookup_2 in Hi.
  apply list_elem_of_fmap in Hi. destruct Hi as (k & Heq & Hk).
  injection Heq as <- _. apply Hout, elem_of_categories, Hk.
Qed.

End Runs.

(** ** Command line and input errors *)

(** C8. Invoked without a positional argument, the program prints the two
    usage lines and exits with status 1: no file is opened, for reading or
    for writing, and the file system is left as it was. *)
Theorem missing_argument_prints_usage `{Externals} argv w :
  (length argv < 2)%nat ->
  fst (main argv w) = 1%Z /\ fst (main argv w) <> 0%Z /\
  stdout (snd (main argv w)) =
    stdout w ++
    [ [Lit "Usage: python analyze_gas_results.py <csv_file>"];
      [Lit (nl +:+ "Example: python analyze_gas_results.py gas_benchmark_results.csv")] ] /\
  files (snd (main argv w)) = files w /\
  io_log (snd (main argv w)) = io_log w.
Proof.
  intros Hlen. rewrite (main_usage argv w Hlen). simpl. repeat split. discriminate.
Qed.

Lemma missing_argument_prints_usage_witness :
  fst (@main Fixture.routines ["analyze_gas_results.py"] Fixture.start) = 1%Z /\
  io_log (snd (@main Fixture.routines ["analyze_gas_results.py"] Fixture.start)) = [].
Proof.
  destruct (missing_argument_prints_usage (H := Fixture.routines)
              ["analyze_gas_results.py"] Fixture.start ltac:(simpl; lia))
    as (Hstatus & _ & _ & _ & Hlog).
  split; [exact Hstatus | exact Hlog].
Defined.

Lemma bind_raised {A B : Type} (c : M A) (f : A -> M B) w e w' :
  c w = (inl e, w') -> (c ≫= f) w = (inl e, w').
Proof. intros Hc. unfold mbind, M_bind. rewrite Hc. reflexivity. Qed.

Lemma load_missing `{Externals} path w :
  files w !! path = None ->
  load_and_prepare_data path w =
  (inl (FileNotFoundError path),
   {| files := files w;
      stdout := stdout w ++
        [ [Lit (nl +:+ banner)]; [Lit "Loading data..."]; [Lit (banner +:+ nl)] ];
      stderr := stderr w;
      io_log := io_log w |}).
Proof.
  intros Hnone.
  unfold load_and_prepare_data, mbind, M_bind, print, read_csv, emit.
  simpl. rewrite Hnone. rewrite <- !app_assoc. reflexivity.
Qed.

(** C5. When the path on the command line names no file, the program prints
    the loading banner and the not-found message and exits with status 1;
    the file system is unchanged, so neither gas_analysis.png nor
    estimateJobGas.ts is created or modified, and no file is opened. *)
Theorem missing_input_file `{Externals} prog path rest w :
  files w !! path = None ->
  main (prog :: path :: rest) w =
    (1%Z, {| files := files w;
             stdout := stdout w ++
               [ [Lit (nl +:+ banner)]; [Lit "Loading data..."]; [Lit (banner +:+ nl)];
                 [Lit "Error: File '"; Lit path; Lit "' not found"] ];
             stderr := stderr w;
             io_log := io_log w |}) /\
  files (snd (main (prog :: path :: rest) w)) !! "gas_analysis.png"
    = files w !! "gas_analysis.png" /\
  files (snd (main (prog :: path :: rest) w)) !! "estimateJobGas.ts"
    = files w !! "estimateJobGas.ts".
Proof.
  intros Hnone.
  assert (Hmain : main (prog :: path :: rest) w =
    (1%Z, {| files := files w;
             stdout := stdout w ++
               [ [Lit (nl +:+ banner)]; [Lit "Loading data..."]; [Lit (banner +:+ nl)];
                 [Lit "Error: File '"; Lit path; Lit "' not found"] ];
             stderr := stderr w;
             io_log := io_log w |})).
  { unfold main. change (length (prog :: path :: rest) <? 2)%nat with false.
    change (nth 1 (prog :: path :: rest) "") with path. cbv iota zeta.
    unfold run_analysis.
    rewrite (bind_raised _ _ _ _ _ (load_missing path w Hnone)).
    unfold emit. simpl. rewrite <- !app_assoc. reflexivity. }
  rewrite Hmain. repeat split.
Qed.

Lemma missing_input_file_witness :
  fst (@main Fixture.routines ["analyze_gas_results.py"; "absent.csv"] Fixture.rerun) = 1%Z /\
  files (snd (@main Fixture.routines ["analyze_gas_results.py"; "absent.csv"] Fixture.rerun))
    !! "estimateJobGas.ts" = Some "stale".
Proof.
  destruct (missing_input_file (H := Fixture.routines)
              "analyze_gas_results.py" "absent.csv" [] Fixture.rerun
              ltac:(vm_compute; reflexivity))
    as (Hmain & _ & Hts).
  split; [rewrite Hmain; reflexivity | rewrite Hts; vm_compute; reflexivity].
Defined.

(** C9. For an input table without a row whose Operation is COUNT (the
    empty table included), the run ends with exit status 1 before anything
    is written: the file system is unchanged and the only file opened is the
    input. Both the lookup of the COUNT baseline and the drop of the
    Op_COUNT column raise a KeyError on such a table. *)
Theorem no_count_row_aborts `{Externals} prog path rest w text raw :
  files w !! path = Some text ->
  parse_csv text = inr raw ->
  Some "COUNT" ∉ map Operation raw ->
  fst (main (prog :: path :: rest) w) = 1%Z /\
  files (snd (main (prog :: path :: rest) w)) = files w /\
  io_log (snd (main (prog :: path :: rest) w)) = io_log w ++ [OpenRead path] /\
  (forall w0, fst (analyze_per_row_costs (map add_filter_bytes raw) w0)
              = inl (KeyError "COUNT")) /\
  (forall target include_interaction w0,
     fst (build_regression_model (map add_filter_bytes raw) target include_interaction w0)
     = inl (KeyError "['Op_COUNT'] not found in axis")).
Proof.
  intros Hfile Hparse Hcount.
  assert (Hops : Some "COUNT" ∉ map (fun r : row => Operation r) (map add_filter_bytes raw))
    by (rewrite operations_of_loaded; exact Hcount).
  pose proof (baseline_missing _ Hops) as Hbase.
  destruct (main_runs prog path rest w) as (w' & Hmain & Hf & Hi & _).
  assert (Hout : analysis_outcome path (files w !! path) = inl (KeyError "COUNT")).
  { unfold analysis_outcome, loaded, outcome_of_table.
    rewrite Hfile, Hparse, exn_bind_inr, Hbase. reflexivity. }
  rewrite Hout, Hfile in *. rewrite Hmain. simpl. repeat split.
  - exact Hf.
  - exact Hi.
  - intros w0. destruct (analyze_per_row_costs_returns (map add_filter_bytes raw) w0)
      as (w1 & -> & _). rewrite Hbase. reflexivity.
  - intros target include_interaction w0.
    destruct (build_regression_model_returns (map add_filter_bytes raw) target
                include_interaction w0) as (w1 & -> & _).
    unfold fit_result. rewrite feature_matrix_described.
    case_bool_decide; [contradiction | reflexivity].
Qed.

Lemma no_count_row_aborts_witness :
  fst (@main Fixture.routines ["analyze_gas_results.py"; "partial.csv"] Fixture.start) = 1%Z /\
  files (snd (@main Fixture.routines ["analyze_gas_results.py"; "partial.csv"] Fixture.start))
  = Fixture.disk.
Proof.
  destruct (no_count_row_aborts (H := Fixture.routines)
              "analyze_gas_results.py" "partial.csv" [] Fixture.start
              Fixture.no_count_csv [Fixture.sum_row; Fixture.max_row]
              ltac:(vm_compute; reflexivity) ltac:(vm_compute; reflexivity)
              ltac:(repeat (apply not_elem_of_cons; split; [discriminate|]);
                    apply not_elem_of_nil))
    as (Hstatus & Hfiles & _).
  split; [exact Hstatus | exact Hfiles].
Defined.

(** ** Determinism and the second fit *)

Lemma outputs_written (o : exn + (string * string)) (fs : gmap string string) :
  status o = 0%Z ->
  exists png code, o = inr (png, code) /\
    write_all (outputs o) fs !! "estimateJobGas.ts" = Some code.
Proof.
  destruct o as [e|[png code]]; [discriminate|]. intros _.
  exists png, code. split; [reflexivity|]. rewrite write_all_outputs.
  apply lookup_insert_eq.
Qed.

Lemma nothing_written (o : exn + (string * string)) (fs : gmap string string) :
  status o <> 0%Z -> write_all (outputs o) fs = fs.
Proof. destruct o as [e|[png code]]; [reflexivity | intros Hs; contradiction Hs; reflexivity]. Qed.

(** C4. Two runs whose input file has the same text (whatever else the two
    file systems, consoles and logs hold) end with the same exit status; when
    that status is 0 both leave the same text in estimateJobGas.ts, and
    otherwise neither writes anything. The numerical routines enter as
    functions of their arguments. *)
Theorem rerun_same_code `{Externals} argv w1 w2 :
  input_text argv w1 = input_text argv w2 ->
  fst (main argv w1) = fst (main argv w2) /\
  (fst (main argv w1) = 0%Z ->
   exists code, files (snd (main argv w1)) !! "estimateJobGas.ts" = Some code /\
                files (snd (main argv w2)) !! "estimateJobGas.ts" = Some code) /\
  (fst (main argv w1) <> 0%Z ->
   files (snd (main argv w1)) = files w1 /\ files (snd (main argv w2)) = files w2).
Proof.
  intros Hsame. destruct argv as [|prog [|path rest]].
  1,2: rewrite !main_usage by (simpl; lia); simpl; repeat split; discriminate.
  change (files w1 !! path = files w2 !! path) in Hsame.
  destruct (main_runs prog path rest w1) as (w1' & -> & Hf1 & _).
  destruct (main_runs prog path rest w2) as (w2' & -> & Hf2 & _).
  rewrite <- Hsame in *. simpl. split; [reflexivity|]. split.
  - intros Hok. destruct (outputs_written _ (files w1) Hok) as (png & code & Ho & H1).
    destruct (outputs_written _ (files w2) Hok) as (png' & code' & Ho' & H2).
    rewrite Ho in Ho'. injection Ho' as <- <-.
    exists code. rewrite Hf1, Hf2. split; assumption.
  - intros Hbad. rewrite Hf1, Hf2, !nothing_written by exact Hbad. split; reflexivity.
Qed.

Lemma rerun_same_code_witness :
  files (snd (@main Fixture.routines ["analyze_gas_results.py"; "results.csv"] Fixture.start))
    !! "estimateJobGas.ts"
  = files (snd (@main Fixture.routines ["analyze_gas_results.py"; "results.csv"] Fixture.rerun))
    !! "estimateJobGas.ts".
Proof.
  destruct (rerun_same_code (H := Fixture.routines)
              ["analyze_gas_results.py"; "results.csv"] Fixture.start Fixture.rerun
              ltac:(vm_compute; reflexivity))
    as (_ & Hcode & _).
  destruct (Hcode ltac:(vm_compute; reflexivity)) as (code & -> & ->). reflexivity.
Defined.




(** The run on the benchmark file with one PushRowTotal cell left empty: the
    first fit returns, the second raises on the NaN among its targets, and
    [main] ends with status 1 before anything is written; the pipeline
    without the second fit completes and writes both files. *)
Example empty_target_cell_run :
  let argv := ["analyze_gas_results.py"; "gaps.csv"] in
  fst (@main Fixture.validating_routines argv Fixture.gap_start) = 1%Z /\
  files (snd (@main Fixture.validating_routines argv Fixture.gap_start))
    = files Fixture.gap_start /\
  stderr (snd (@main Fixture.validating_routines argv Fixture.gap_start))
    = [[Raised (ValueError "Input y contains NaN.")]] /\
  fst (@run_analysis_single_fit Fixture.validating_routines "gaps.csv" Fixture.gap_start)
    = inr tt /\
  files (snd (@run_analysis_single_fit Fixture.validating_routines "gaps.csv"
                Fixture.gap_start)) !! "gas_analysis.png" = Some "PNG" /\
  is_Some (files (snd (@run_analysis_single_fit Fixture.validating_routines "gaps.csv"
                         Fixture.gap_start)) !! "estimateJobGas.ts").
Proof.
  cbv zeta. repeat split; try (vm_compute; reflexivity).
  vm_compute. eexists. reflexivity.
Qed.


(** ** The two templates *)

(** C2. The generator never raises and writes to estimateJobGas.ts a text
    that is an instance of one of exactly two templates, chosen by whether
    Rows_x_Columns is a feature of the coefficient table: with it, the
    with-interaction template, which has the product of rows and columns;
    without it, the other template, in which that product does not occur and
    which therefore differs from every text of the with-interaction variant. *)
Theorem generator_two_variants (model : linear_model) (coef_df : list coef_row) :
  exists text,
    estimator_code model coef_df = inr text /\
    (forall w, fst (generate_estimator_code model coef_df w) = inr tt /\
               files (snd (generate_estimator_code model coef_df w))
                 !! "estimateJobGas.ts" = Some text) /\
    if has_feature "Rows_x_Columns" coef_df
    then with_interaction_variant text /\ occurs interaction_product text
    else without_interaction_variant text /\
         ~ occurs interaction_product text /\
         (forall text', with_interaction_variant text' -> text <> text') /\
         (forall model' coef_df',
            has_feature "Rows_x_Columns" coef_df' = true ->
            estimator_code model' coef_df' <> inr text).
Proof.
  destruct (estimator_code_variants model coef_df) as (text & Hcode & Hvariant).
  exists text. split; [exact Hcode|]. split.
  { intros w. destruct (generate_estimator_code_returns model coef_df text Hcode w)
      as (w' & -> & Hf & _).
    split; [reflexivity|]. simpl snd. rewrite Hf. apply lookup_insert_eq. }
  destruct (has_feature "Rows_x_Columns" coef_df).
  - split; [exact Hvariant|]. apply contains_occurs, with_interaction_has_product, Hvariant.
  - pose proof (without_interaction_no_product text Hvariant) as Hno.
    assert (Hdiff : forall text', with_interaction_variant text' -> text <> text').
    { intros text' Hwith ->. apply with_interaction_has_product in Hwith. congruence. }
    repeat split; [exact Hvariant | | exact Hdiff |].
    + intros Hocc. apply contains_occurs in Hocc. congruence.
    + intros model' coef_df' Hhas Hsame.
      destruct (estimator_code_variants model' coef_df') as (text' & Hcode' & Hvariant').
      rewrite Hhas in Hvariant'. rewrite Hsame in Hcode'. injection Hcode' as <-.
      exact (Hdiff text Hvariant' eq_refl).
Qed.

Example generated_without_interaction :
  exists text, estimator_code {| intercept_ := of_Z 5; coef_ := [] |} Fixture.coefficients
               = inr text /\
    contains "gas += rows * 12;" text = true /\
    contains "'SUM': 4," text = true /\
    contains "interaction" text = false.
Proof. eexists. split; [vm_compute; reflexivity|]. repeat split; vm_compute; reflexivity. Qed.

(** ** The threshold checks *)

Lemma fit_result_steps `{Externals} df target include_interaction model X y y_pred coef_df :
  fit_result df target include_interaction = inr (model, X, y, y_pred, coef_df) ->
  feature_matrix df include_interaction = inr X /\
  column target df = inr y /\
  lr_fit X y = inr model /\
  coefficient_table (map fst X) (coef_ model) = inr coef_df /\
  y_pred = lr_predict model X.
Proof.
  unfold fit_result. destruct (feature_matrix df include_interaction) as [e|X0]; [discriminate|].
  rewrite exn_bind_inr. destruct (column target df) as [e|y0]; [discriminate|].
  rewrite exn_bind_inr. destruct (lr_fit X0 y0) as [e|m0] eqn:Hfit; [discriminate|].
  rewrite exn_bind_inr. destruct (coefficient_table _ _) as [e|c0] eqn:Hc; [discriminate|].
  rewrite exn_bind_inr. intros Heq. injection Heq as <- <- <- <- <-.
  repeat split; assumption.
Qed.

Lemma stdout_emit line w : stdout (emit line w) = stdout w ++ [line].
Proof. reflexivity. Qed.

(** The lines a successful fit prints include the two verdicts. *)
Lemma build_regression_model_verdicts `{Externals}
      df target include_interaction w model X y y_pred coef_df :
  fit_result df target include_interaction = inr (model, X, y, y_pred, coef_df) ->
  exists lines,
    stdout (snd (build_regression_model df target include_interaction w))
    = stdout w ++ lines /\
    [Lit (if PyFloat.ge (r2_score y y_pred) threshold_r2
          then "  ✓ Model meets R² target!"
          else "  ✗ Model below R² target")] ∈ lines /\
    [Lit (if PyFloat.le (fmul (mean_absolute_percentage_error y y_pred) hundred)
                        threshold_mape
          then "  ✓ Model meets MAPE target!"
          else "  ✗ Model above MAPE target - consider more terms")] ∈ lines.
Proof.
  intros Hfit. destruct (fit_result_steps _ _ _ _ _ _ _ _ Hfit) as (HX & Hy & Hm & Hc & ->).
  unfold build_regression_model, mbind, M_bind, print, lift, raise, mret, M_ret.
  rewrite HX, Hy, Hm, Hc.
  destruct include_interaction,
    (PyFloat.ge (r2_score y (lr_predict model X)) threshold_r2),
    (PyFloat.le (fmul (mean_absolute_percentage_error y (lr_predict model X)) hundred)
                threshold_mape);
    cbv beta iota; unfold snd; rewrite !stdout_emit, <- !app_assoc; cbn [app];
    (eexists; split; [reflexivity|]; split;
     repeat first [ apply list_elem_of_here | apply list_elem_of_further ]).
Qed.

(** C7. Whatever the two metrics evaluate to, hence whether or not
    R² >= 0.60 and MAPE <= 40 hold, [build_regression_model] returns the same
    values (those of the fit, or the exception the fit raised) and touches
    nothing but the console, where a successful fit prints the verdict of
    each comparison; and [main] ends with the same exit status, the same
    files and the same log of opened files. *)
Theorem threshold_checks_only_print (lib : Externals)
        (r2 mape : list cell -> list pyfloat -> pyfloat)
        (df : list row) (target : string) (include_interaction : bool) (w : world) :
  fst (@build_regression_model (with_metrics lib r2 mape) df target include_interaction w)
    = @fit_result lib df target include_interaction /\
  files (snd (@build_regression_model (with_metrics lib r2 mape) df target
                                      include_interaction w)) = files w /\
  io_log (snd (@build_regression_model (with_metrics lib r2 mape) df target
                                       include_interaction w)) = io_log w /\
  stderr (snd (@build_regression_model (with_metrics lib r2 mape) df target
                                       include_interaction w)) = stderr w /\
  (forall model X y y_pred coef_df,
     @fit_result lib df target include_interaction = inr (model, X, y, y_pred, coef_df) ->
     exists lines,
       stdout (snd (@build_regression_model (with_metrics lib r2 mape) df target
                                            include_interaction w))
       = stdout w ++ lines /\
       [Lit (if PyFloat.ge (r2 y y_pred) threshold_r2
             then "  ✓ Model meets R² target!"
             else "  ✗ Model below R² target")] ∈ lines /\
       [Lit (if PyFloat.le (@fmul lib (mape y y_pred) hundred) threshold_mape
             then "  ✓ Model meets MAPE target!"
             else "  ✗ Model above MAPE target - consider more terms")] ∈ lines) /\
  (forall argv,
     fst (@main (with_metrics lib r2 mape) argv w) = fst (@main lib argv w) /\
     files (snd (@main (with_metrics lib r2 mape) argv w)) = files (snd (@main lib argv w)) /\
     io_log (snd (@main (with_metrics lib r2 mape) argv w)) = io_log (snd (@main lib argv w))).
Proof.
  destruct (@build_regression_model_returns (with_metrics lib r2 mape) df target
              include_interaction w) as (w' & Hrun & Hf & Hi & He & _).
  rewrite app_nil_r in Hi.
  split; [rewrite Hrun; reflexivity|]. split; [rewrite Hrun; exact Hf|].
  split; [rewrite Hrun; exact Hi|]. split; [rewrite Hrun; exact He|]. split.
  - intros model X y y_pred coef_df Hfit.
    exact (@build_regression_model_verdicts (with_metrics lib r2 mape) df target
             include_interaction w model X y y_pred coef_df Hfit).
  - intros argv. destruct argv as [|prog [|path rest]].
    1,2: rewrite !main_usage by (simpl; lia); repeat split.
    destruct (@main_runs (with_metrics lib r2 mape) prog path rest w) as (wa & -> & Hfa & Hia & _).
    destruct (@main_runs lib prog path rest w) as (wb & -> & Hfb & Hib & _).
    simpl fst. simpl snd. rewrite Hfa, Hia, Hfb, Hib. repeat split.
Qed.

Example verdicts_of_fixture :
  [Lit "  ✓ Model meets R² target!"]
    ∈ stdout (snd (@build_regression_model Fixture.routines Fixture.prepared "TotalGas" true
                                           Fixture.start)) /\
  [Lit "  ✗ Model below R² target"]
    ∈ stdout (snd (@build_regression_model
                     (with_metrics Fixture.routines (fun _ _ => FNaN) (fun _ _ => FInf false))
                     Fixture.prepared "TotalGas" true Fixture.start)) /\
  fst (@build_regression_model
         (with_metrics Fixture.routines (fun _ _ => FNaN) (fun _ _ => FInf false))
         Fixture.prepared "TotalGas" true Fixture.start)
  = fst (@build_regression_model Fixture.routines Fixture.prepared "TotalGas" true
                                 Fixture.start).
Proof.
  repeat split; vm_compute;
    repeat first [ apply list_elem_of_here | apply list_elem_of_further | reflexivity ].
Qed.

(** ** The descriptive reporter *)

Lemma groupby_agg_describes `{Externals} key fns df :
  describes key fns df (groupby_agg key (fun r => CInt (TotalGas r)) fns df).
Proof.
  unfold describes, groupby_agg.
  assert (Hkeys : forall value : string -> list (string * cell),
             map fst (map (fun k => (k, value k)) (categories (map key df)))
             = categories (map key df)).
  { intros value. rewrite map_map. simpl. apply map_id. }
  rewrite Hkeys. split; [apply categories_NoDup|]. split.
  - intros k. apply elem_of_categories.
  - intros k stats Hin. apply list_elem_of_fmap in Hin.
    destruct Hin as (k' & Heq & _). injection Heq as <- ->. reflexivity.
Qed.

(** C6, as the code has it. The reporter prints two tables: per distinct
    Operation value the mean, min, max and standard deviation of TotalGas,
    and per distinct FilterComplexity value the mean, min and max of
    TotalGas (no standard deviation). *)
Theorem reporter_statistics `{Externals} (df : list row) (w : world) :
  exists lines by_operation by_complexity,
    stdout (snd (analyze_basic_statistics df w)) = stdout w ++ lines /\
    printed_tables lines = [by_operation; by_complexity] /\
    describes (fun r : row => Operation r) [Mean; Min; Max; Std] df by_operation /\
    describes (fun r : row => FilterComplexity r) [Mean; Min; Max] df by_complexity.
Proof.
  unfold analyze_basic_statistics, mbind, M_bind, print.
  cbv beta iota zeta. unfold snd. rewrite !stdout_emit, <- !app_assoc. cbn [app].
  eexists. eexists. eexists. split; [reflexivity|]. split; [reflexivity|].
  split; apply groupby_agg_describes.
Qed.

(** On the benchmark table of the fixture the table by FilterComplexity has
    three statistics per line, so the reporter does not compute all four for
    both groupings. *)
Lemma reporter_omits_std_by_complexity :
  ~ @reports_four_statistics_for_both Fixture.routines Fixture.prepared.
Proof.
  intros Hclaim.
  destruct (Hclaim Fixture.start) as (lines & by_operation & by_complexity
                                      & Hout & Htables & _ & _ & _ & Hstats).
  vm_compute in Hout. subst lines.
  unfold printed_tables in Htables. simpl in Htables.
  injection Htables as _ <-.
  specialize (Hstats "none" _ ltac:(apply list_elem_of_here)).
  apply (f_equal (@length _)) in Hstats. vm_compute in Hstats. discriminate.
Qed.

(** * Further properties of the stages *)

(** ** Stripping the operation prefix *)







(** Replacing every occurrence is not the inverse of putting one [Op_] in
    front: labels that contain [Op_] lose it, and the text left may even hold
    a new [Op_]. *)
Example operation_name_collisions :
  remove_Op_ ("Op_" +:+ "Op_MAX") = "MAX" /\ remove_Op_ ("Op_" +:+ "MOp_AX") = "MAX" /\
  remove_Op_ ("Op_" +:+ "OOp_p_") = "Op_".
Proof. repeat split; reflexivity. Qed.

(** ** The coefficients the generator picks *)

Lemma filed_lookup name : forall (l : list coef_row) (m : gmap string pyfloat),
  fold_left file_row l m !! name =
  match last (filter (files_under name) l) with
  | Some c => Some (Coefficient c)
  | None => m !! name
  end.
Proof.
  induction l as [|c l IH]; intros m; [reflexivity|].
  cbn [fold_left]. rewrite IH, filter_cons.
  destruct (decide (files_under name c)) as [[Hp Hn]|Hno].
  - rewrite last_cons. destruct (last (filter (files_under name) l)); [reflexivity|].
    unfold file_row. rewrite Hp, Hn. apply lookup_insert_eq.
  - destruct (last (filter (files_under name) l)); [reflexivity|].
    unfold file_row. destruct (String.prefix "Op_" (Feature c)) eqn:Hp; [|reflexivity].
    apply lookup_insert_ne. intros Hn. apply Hno. split; [exact Hp | exact Hn].
Qed.

(** X2. The coefficient the generator prints for an operation name is that
    of the last row of the coefficient table (in table order) whose feature
    starts with [Op_] and, with every [Op_] removed, reads as that name; when
    there is no such row the default 0 is printed. Several features can
    read as one name, and then later rows override earlier ones. *)
Theorem operation_coefficient_is_last_filed (coef_df : list coef_row) (name : string) :
  get_or_zero (operation_coefficients coef_df) name =
  match last (filter (files_under name) coef_df) with
  | Some c => Coefficient c
  | None => zero
  end.
Proof.
  unfold get_or_zero, operation_coefficients.
  change (fold_left _ coef_df ∅) with (fold_left file_row coef_df ∅).
  rewrite filed_lookup, lookup_empty.
  destruct (last (filter (files_under name) coef_df)); reflexivity.
Qed.

Example later_row_overrides :
  format_0f (get_or_zero (operation_coefficients
                            [ coefficient_row "Op_MAX" (of_Z 900);
                              coefficient_row "Rows" (of_Z 12);
                              coefficient_row "Op_Op_MAX" (of_Z 5) ]) "MAX") = "5".
Proof. reflexivity. Qed.

Lemma has_feature_skip name extra l1 l2 :
  Feature extra <> name ->
  has_feature name (l1 ++ extra :: l2) = has_feature name (l1 ++ l2).
Proof.
  intros Hne. unfold has_feature. rewrite !existsb_app. cbn [existsb].
  apply String.eqb_neq in Hne. rewrite Hne. reflexivity.
Qed.

Lemma first_coefficient_skip name extra l1 l2 :
  Feature extra <> name ->
  first_coefficient name (l1 ++ extra :: l2) = first_coefficient name (l1 ++ l2).
Proof.
  intros Hne. unfold first_coefficient. rewrite !filter_app, filter_cons.
  destruct (decide (Feature extra = name)); [contradiction | reflexivity].
Qed.

Lemma coefficient_or_zero_skip name extra l1 l2 :
  Feature extra <> name ->
  coefficient_or_zero name (l1 ++ extra :: l2) = coefficient_or_zero name (l1 ++ l2).
Proof.
  intros Hne. unfold coefficient_or_zero.
  rewrite has_feature_skip, first_coefficient_skip by exact Hne. reflexivity.
Qed.

Lemma operation_coefficient_skip name extra l1 l2 :
  ~ files_under name extra ->
  get_or_zero (operation_coefficients (l1 ++ extra :: l2)) name
  = get_or_zero (operation_coefficients (l1 ++ l2)) name.
Proof.
  intros Hno. unfold get_or_zero, operation_coefficients.
  change (fold_left _ (l1 ++ extra :: l2) ∅) with (fold_left file_row (l1 ++ extra :: l2) ∅).
  change (fold_left _ (l1 ++ l2) ∅) with (fold_left file_row (l1 ++ l2) ∅).
  rewrite !filed_lookup, !filter_app, filter_cons.
  destruct (decide (files_under name extra)); [contradiction | reflexivity].
Qed.

(** X3. The generated text depends on the coefficient table only through
    the rows named Rows, Columns, FilterBytes and Rows_x_Columns and the rows
    filed under SUM, AVG_P, WEIGHTED_SUM, MIN and MAX: a row of any other
    feature (the indicator of an operation outside the five, say), wherever
    it stands in the table, changes nothing in the text. *)
Theorem other_features_are_ignored (model : linear_model) (l1 l2 : list coef_row)
        (extra : coef_row) :
  Feature extra ∉ base_features ->
  (forall name, name ∈ printed_operations -> ~ files_under name extra) ->
  estimator_code model (l1 ++ extra :: l2) = estimator_code model (l1 ++ l2).
Proof.
  intros Hbase Hops. unfold base_features in Hbase. rewrite !not_elem_of_cons in Hbase.
  destruct Hbase as (H0 & H1 & H2 & H3 & _).
  unfold estimator_code.
  rewrite !coefficient_or_zero_skip, has_feature_skip, first_coefficient_skip by congruence.
  rewrite !(operation_coefficient_skip _ extra l1 l2)
    by (apply Hops; unfold printed_operations;
        repeat first [ apply list_elem_of_here | apply list_elem_of_further ]).
  reflexivity.
Qed.

Lemma other_features_are_ignored_witness :
  estimator_code {| intercept_ := of_Z 5; coef_ := [] |}
                 (Fixture.coefficients ++ [coefficient_row "Op_MEDIAN" (of_Z 77)])
  = estimator_code {| intercept_ := of_Z 5; coef_ := [] |} (Fixture.coefficients ++ []).
Proof.
  apply (other_features_are_ignored {| intercept_ := of_Z 5; coef_ := [] |}
           Fixture.coefficients [] (coefficient_row "Op_MEDIAN" (of_Z 77))).
  - unfold base_features. repeat (apply not_elem_of_cons; split; [discriminate|]).
    apply not_elem_of_nil.
  - intros name Hname [_ Hstrip]. unfold printed_operations in Hname.
    repeat (apply elem_of_cons in Hname as [->|Hname]; [discriminate Hstrip|]).
    inversion Hname.
Defined.

(** ** The order of the coefficient table *)

Lemma compare_fin_scaled (E : Z) n1 m1 e1 n2 m2 e2 :
  (E <= e1)%Z -> (E <= e2)%Z ->
  compare_fin n1 m1 e1 n2 m2 e2
  = (signed n1 m1 * 2 ^ (e1 - E) ?= signed n2 m2 * 2 ^ (e2 - E))%Z.
Proof.
  intros H1 H2. unfold compare_fin.
  set (mn := Z.min e1 e2).
  assert (Hmn : (E <= mn)%Z) by (unfold mn; lia).
  assert (Hp : (2 ^ (mn - E) > 0)%Z) by (apply Z.lt_gt, Z.pow_pos_nonneg; lia).
  rewrite (Zmult_compare_compat_r _ _ _ Hp), <- !Z.mul_assoc, <- !Z.pow_add_r
    by (unfold mn; lia).
  replace (e1 - mn + (mn - E))%Z with (e1 - E)%Z by lia.
  replace (e2 - mn + (mn - E))%Z with (e2 - E)%Z by lia.
  reflexivity.
Qed.

Lemma goes_first_fin (E : Z) n1 m1 e1 n2 m2 e2 :
  (E <= e1)%Z -> (E <= e2)%Z ->
  goes_first (FFin n1 m1 e1) (FFin n2 m2 e2) = false <->
  (signed n1 m1 * 2 ^ (e1 - E) <= signed n2 m2 * 2 ^ (e2 - E))%Z.
Proof.
  intros H1 H2. unfold goes_first, PyFloat.lt, PyFloat.le, is_nan.
  rewrite (compare_fin_scaled E) by assumption.
  rewrite orb_false_r. unfold Z.le.
  destruct (_ ?= _)%Z; simpl; split; congruence.
Qed.

Lemma goes_first_asymmetric (a b : pyfloat) :
  goes_first a b = true -> goes_first b a = false.
Proof.
  destruct a as [|[]|n1 m1 e1], b as [|[]|n2 m2 e2];
    try (cbv [goes_first PyFloat.lt PyFloat.le is_nan negb orb andb]; congruence).
  intros Hab. apply (goes_first_fin (Z.min e1 e2)); [lia..|].
  destruct (goes_first (FFin n1 m1 e1) (FFin n2 m2 e2)) eqn:E; [|discriminate].
  assert (Hn : ~ (signed n1 m1 * 2 ^ (e1 - Z.min e1 e2)
                  <= signed n2 m2 * 2 ^ (e2 - Z.min e1 e2))%Z).
  { intros Hle. apply (goes_first_fin (Z.min e1 e2)) in Hle; [congruence | lia..]. }
  lia.
Qed.

Lemma may_precede_transitive (a b c : pyfloat) :
  may_precede a b -> may_precede b c -> may_precede a c.
Proof.
  unfold may_precede.
  destruct a as [|[]|n1 m1 e1], b as [|[]|n2 m2 e2], c as [|[]|n3 m3 e3];
    try (cbv [goes_first PyFloat.lt PyFloat.le is_nan negb orb andb]; congruence).
  set (E := Z.min e1 (Z.min e2 e3)).
  rewrite (goes_first_fin E), (goes_first_fin E), (goes_first_fin E) by (unfold E; lia).
  lia.
Qed.

Lemma insert_desc_permutation {A : Type} (key : A -> pyfloat) (x : A) :
  forall l, insert_desc key x l ≡ₚ x :: l.
Proof.
  induction l as [|y l IH]; [reflexivity|]. simpl.
  destruct (goes_first (key y) (key x)); [|reflexivity].
  rewrite IH. apply Permutation_swap.
Qed.

Lemma sort_values_desc_permutation {A : Type} (key : A -> pyfloat) (l : list A) :
  sort_values_desc key l ≡ₚ l.
Proof.
  induction l as [|x l IH]; [reflexivity|].
  unfold sort_values_desc in *. simpl. rewrite insert_desc_permutation, IH. reflexivity.
Qed.

Lemma insert_desc_sorted {A : Type} (key : A -> pyfloat) (x : A) :
  forall l,
    StronglySorted (fun a b => may_precede (key a) (key b)) l ->
    StronglySorted (fun a b => may_precede (key a) (key b)) (insert_desc key x l).
Proof.
  induction l as [|y l IH]; intros Hl; simpl.
  - repeat constructor.
  - inversion_clear Hl as [|? ? Hs Hy].
    destruct (goes_first (key y) (key x)) eqn:E.
    + constructor; [exact (IH Hs)|].
      apply Forall_forall. intros z Hz.
      rewrite (insert_desc_permutation key x l), elem_of_cons in Hz.
      destruct Hz as [->|Hz].
      * apply goes_first_asymmetric, E.
      * rewrite Forall_forall in Hy. exact (Hy z Hz).
    + constructor; [constructor; assumption|].
      constructor; [exact E|].
      eapply Forall_impl; [exact Hy|]. intros z Hz. simpl in Hz.
      exact (may_precede_transitive _ _ _ E Hz).
Qed.

Lemma sort_values_desc_sorted {A : Type} (key : A -> pyfloat) (l : list A) :
  StronglySorted (fun a b => may_precede (key a) (key b)) (sort_values_desc key l).
Proof.
  induction l as [|x l IH]; [constructor|].
  unfold sort_values_desc in *. simpl. apply insert_desc_sorted, IH.
Qed.

Lemma sorted_pairs {A : Type} (R : A -> A -> Prop) (l : list A) :
  StronglySorted R l -> forall a b, sublist [a; b] l -> R a b.
Proof.
  induction 1 as [|x l Hs IHs Hx]; intros a b Hsub.
  - inversion Hsub.
  - inversion Hsub as [| ? ? ? Hsub' | ? ? ? Hsub']; subst.
    + rewrite Forall_forall in Hx. apply Hx. apply singleton_sublist_l, Hsub'.
    + exact (IHs a b Hsub').
Qed.

(** X4. The coefficient table is built exactly when there are as many
    coefficients as feature names (otherwise a ValueError is raised); it then
    holds one row per feature, pairing the i-th name with the i-th
    coefficient (Impact a copy of Coefficient), reordered so that no row
    stands before a row of strictly greater coefficient and NaN coefficients
    come last. *)
Theorem coefficient_table_sorted_pairs (names : list string) (coefs : list pyfloat) :
  (length names <> length coefs ->
   coefficient_table names coefs = inl (ValueError "All arrays must be of the same length")) /\
  (length names = length coefs ->
   exists coef_df,
     coefficient_table names coefs = inr coef_df /\
     coef_df ≡ₚ zip_with coefficient_row names coefs /\
     map Feature coef_df ≡ₚ names /\
     StronglySorted (fun a b => may_precede (Coefficient a) (Coefficient b)) coef_df /\
     (forall a b : coef_row, PyFloat.lt (Coefficient a) (Coefficient b) = true ->
                             ~ sublist [a; b] coef_df) /\
     (forall a b : coef_row, is_nan (Coefficient a) = true -> is_nan (Coefficient b) = false ->
                             ~ sublist [a; b] coef_df)).
Proof.
  unfold coefficient_table. split; intros Hlen.
  - apply Nat.eqb_neq in Hlen. rewrite Hlen. reflexivity.
  - rewrite (proj2 (Nat.eqb_eq _ _) Hlen). eexists. split; [reflexivity|].
    pose proof (sort_values_desc_permutation Coefficient
                  (zip_with coefficient_row names coefs)) as Hperm.
    pose proof (sort_values_desc_sorted Coefficient
                  (zip_with coefficient_row names coefs)) as Hsorted.
    fold coefficient_row. split; [exact Hperm|]. split.
    + rewrite Hperm. clear Hperm Hsorted. revert coefs Hlen.
      induction names as [|n names IH]; intros [|c coefs] Hlen; try discriminate;
        [reflexivity|].
      simpl. rewrite IH by (simpl in Hlen; lia). reflexivity.
    + split; [exact Hsorted|].
      pose proof (sorted_pairs _ _ Hsorted) as Hpair.
      split; intros a b.
      * intros Hlt Hsub. specialize (Hpair a b Hsub).
        unfold may_precede, goes_first in Hpair. rewrite Hlt in Hpair. discriminate.
      * intros Hna Hnb Hsub. specialize (Hpair a b Hsub).
        unfold may_precede, goes_first in Hpair. rewrite Hna, Hnb, orb_true_r in Hpair.
        discriminate.
Qed.

(** ** From the fit to the generated text *)

Lemma described_names df include_interaction :
  map fst (described_feature_matrix df include_interaction) =
  ["Rows"; "Columns"; "FilterBytes"]
  ++ (if include_interaction then ["Rows_x_Columns"] else [])
  ++ map (fun v => "Op_" +:+ v) (indicator_labels df).
Proof.
  unfold described_feature_matrix. destruct include_interaction; simpl;
    rewrite map_map; reflexivity.
Qed.

Lemma described_names_NoDup df include_interaction :
  NoDup (map fst (described_feature_matrix df include_interaction)).
Proof.
  rewrite described_names.
  assert (Hops : NoDup (map (fun v => "Op_" +:+ v) (indicator_labels df))).
  { apply NoDup_fmap_2_strong; [|apply NoDup_filter, categories_NoDup].
    intros a b _ _ Hab.
    change (String "O" (String "p" (String "_" a)) = String "O" (String "p" (String "_" b)))
      in Hab.
    injection Hab as Hab. exact Hab. }
  assert (Hfresh : forall n, n ∈ ["Rows"; "Columns"; "FilterBytes"; "Rows_x_Columns"] ->
                             n ∉ map (fun v => "Op_" +:+ v) (indicator_labels df)).
  { intros n Hn Hin. apply list_elem_of_fmap in Hin. destruct Hin as (v & -> & _).
    repeat (apply elem_of_cons in Hn as [Hn|Hn]; [discriminate Hn|]). inversion Hn. }
  destruct include_interaction; simpl;
    repeat (apply NoDup_cons; split;
            [ rewrite ?not_elem_of_cons; repeat (split; [discriminate|]);
              apply Hfresh; repeat first [apply list_elem_of_here | apply list_elem_of_further]
            | ]);
    exact Hops.
Qed.

Lemma lookup_by_name names coefs coef_df i n c :
  NoDup names ->
  coefficient_table names coefs = inr coef_df ->
  names !! i = Some n -> coefs !! i = Some c ->
  has_feature n coef_df = true /\ first_coefficient n coef_df = inr c.
Proof.
  intros Hnd Htable Hn Hc. unfold coefficient_table in Htable.
  destruct (length names =? length coefs)%nat; [|discriminate].
  injection Htable as <-. fold coefficient_row.
  pose proof (sort_values_desc_permutation Coefficient
                (zip_with coefficient_row names coefs)) as Hperm.
  set (table := sort_values_desc Coefficient (zip_with coefficient_row names coefs)) in *.
  assert (Hrow : coefficient_row n c ∈ table).
  { rewrite Hperm. apply list_elem_of_lookup. exists i.
    rewrite lookup_zip_with, Hn. simpl. rewrite Hc. reflexivity. }
  assert (Hall : forall r, r ∈ table -> Feature r = n -> Coefficient r = c).
  { intros r Hr Hf. rewrite Hperm in Hr. apply list_elem_of_lookup in Hr.
    destruct Hr as [j Hj]. rewrite lookup_zip_with in Hj.
    destruct (names !! j) as [n'|] eqn:Hn'; [|discriminate]. simpl in Hj.
    destruct (coefs !! j) as [c'|] eqn:Hc'; [|discriminate]. injection Hj as <-.
    simpl in Hf. subst n'.
    assert (j = i) as -> by (eapply NoDup_lookup; eassumption).
    rewrite Hc in Hc'. injection Hc' as <-. reflexivity. }
  split.
  - unfold has_feature. apply existsb_exists. exists (coefficient_row n c).
    split; [apply list_elem_of_In, Hrow | apply String.eqb_refl].
  - unfold first_coefficient.
    destruct (filter (fun r => Feature r = n) table) as [|r rest] eqn:Hfilter.
    + exfalso. assert (Hin : coefficient_row n c ∈ filter (fun r => Feature r = n) table)
        by (apply list_elem_of_filter; split; [reflexivity | exact Hrow]).
      rewrite Hfilter in Hin. inversion Hin.
    + assert (Hin : r ∈ filter (fun r => Feature r = n) table)
        by (rewrite Hfilter; apply list_elem_of_here).
      apply list_elem_of_filter in Hin. destruct Hin as [Hf Hr].
      rewrite (Hall r Hr Hf). reflexivity.
Qed.

Lemma fitted_table `{Externals} df target include_interaction model X y y_pred coef_df :
  fit_result df target include_interaction = inr (model, X, y, y_pred, coef_df) ->
  map fst X = ["Rows"; "Columns"; "FilterBytes"]
              ++ (if include_interaction then ["Rows_x_Columns"] else [])
              ++ map (fun v => "Op_" +:+ v) (indicator_labels df) /\
  NoDup (map fst X) /\
  coefficient_table (map fst X) (coef_ model) = inr coef_df /\
  length (coef_ model) = length (map fst X).
Proof.
  intros Hfit. destruct (fit_result_steps _ _ _ _ _ _ _ _ Hfit) as (HX & _ & _ & Hc & _).
  rewrite feature_matrix_described in HX. case_bool_decide; [|discriminate].
  injection HX as <-.
  split; [apply described_names|]. split; [apply described_names_NoDup|].
  split; [exact Hc|].
  unfold coefficient_table in Hc.
  destruct (Nat.eqb_spec (length (map fst (described_feature_matrix df include_interaction)))
                         (length (coef_ model))); [congruence | discriminate].
Qed.

(** X5. After a fit with the interaction term, the generated text is the
    with-interaction template filled with the intercept of the model and
    with the coefficients the model holds at the positions of the columns
    Rows (0), Columns (1), Rows_x_Columns (3) and FilterBytes (2): sorting
    the coefficient table does not detach a coefficient from its feature. *)
Theorem fitted_coefficients_reach_the_code `{Externals}
        df target model X y y_pred coef_df :
  fit_result df target true = inr (model, X, y, y_pred, coef_df) ->
  exists c_rows c_columns c_filter c_interaction,
    coef_ model !! 0%nat = Some c_rows /\
    coef_ model !! 1%nat = Some c_columns /\
    coef_ model !! 2%nat = Some c_filter /\
    coef_ model !! 3%nat = Some c_interaction /\
    estimator_code model coef_df =
    inr (template_with_interaction
           (format_0f (intercept_ model)) (format_0f c_rows) (format_0f c_columns)
           (format_0f c_interaction) (format_0f c_filter)
           (format_0f (get_or_zero (operation_coefficients coef_df) "SUM"))
           (format_0f (get_or_zero (operation_coefficients coef_df) "AVG_P"))
           (format_0f (get_or_zero (operation_coefficients coef_df) "WEIGHTED_SUM"))
           (format_0f (get_or_zero (operation_coefficients coef_df) "MIN"))
           (format_0f (get_or_zero (operation_coefficients coef_df) "MAX"))).
Proof.
  intros Hfit. destruct (fitted_table _ _ _ _ _ _ _ _ Hfit) as (Hnames & Hnd & Htable & Hlen).
  rewrite Hnames in Hlen. simpl in Hlen.
  destruct (coef_ model) as [|c0 [|c1 [|c2 [|c3 more]]]] eqn:Hcoefs; try discriminate.
  rewrite <- Hcoefs in Htable.
  assert (Hat : forall i n c, map fst X !! i = Some n -> coef_ model !! i = Some c ->
                              has_feature n coef_df = true /\ first_coefficient n coef_df = inr c)
    by (intros i n c; apply lookup_by_name; assumption).
  destruct (Hat 0%nat "Rows" c0) as [Hh0 Hf0]; [rewrite Hnames | rewrite Hcoefs |]; try reflexivity.
  destruct (Hat 1%nat "Columns" c1) as [Hh1 Hf1]; [rewrite Hnames | rewrite Hcoefs |]; try reflexivity.
  destruct (Hat 2%nat "FilterBytes" c2) as [Hh2 Hf2]; [rewrite Hnames | rewrite Hcoefs |]; try reflexivity.
  destruct (Hat 3%nat "Rows_x_Columns" c3) as [Hh3 Hf3]; [rewrite Hnames | rewrite Hcoefs |]; try reflexivity.
  exists c0, c1, c2, c3. repeat (split; [reflexivity|]).
  unfold estimator_code, coefficient_or_zero. rewrite Hh0, Hf0, Hh1, Hf1, Hh2, Hf2, Hh3, Hf3.
  reflexivity.
Qed.

Lemma fitted_coefficients_reach_the_code_witness :
  exists text, contains "gas += (rows * columns) * 14;" text = true /\
               files (snd (@main Fixture.routines ["analyze_gas_results.py"; "results.csv"]
                                 Fixture.start)) !! "estimateJobGas.ts" = Some text.
Proof.
  destruct (fitted_coefficients_reach_the_code (H := Fixture.routines)
              Fixture.prepared "TotalGas"
              ltac:(let r := eval vm_compute in
                              (@fit_result Fixture.routines Fixture.prepared "TotalGas" true)
                    in lazymatch r with inr (?m, _, _, _, _) => exact m end)
              ltac:(let r := eval vm_compute in
                              (@fit_result Fixture.routines Fixture.prepared "TotalGas" true)
                    in lazymatch r with inr (_, ?x, _, _, _) => exact x end)
              ltac:(let r := eval vm_compute in
                              (@fit_result Fixture.routines Fixture.prepared "TotalGas" true)
                    in lazymatch r with inr (_, _, ?x, _, _) => exact x end)
              ltac:(let r := eval vm_compute in
                              (@fit_result Fixture.routines Fixture.prepared "TotalGas" true)
                    in lazymatch r with inr (_, _, _, ?x, _) => exact x end)
              ltac:(let r := eval vm_compute in
                              (@fit_result Fixture.routines Fixture.prepared "TotalGas" true)
                    in lazymatch r with inr (_, _, _, _, ?x) => exact x end)
              ltac:(vm_compute; reflexivity))
    as (c0 & c1 & c2 & c3 & _ & _ & _ & H3 & Hcode).
  vm_compute in H3. injection H3 as <-.
  eexists. split; [|vm_compute; reflexivity]. vm_compute. reflexivity.
Defined.

(** ** Tables with a COUNT row *)

Lemma baseline_present `{Externals} df :
  Some "COUNT" ∈ map (fun r : row => Operation r) df ->
  baseline_result df =
  inr (CFloat (series_mean (group_values (fun r : row => Operation r)
                                         (fun r => CFloat (PushRowAvg r)) "COUNT" df))).
Proof.
  intros Hin. apply elem_of_categories in Hin.
  unfold baseline_result, loc, groupby_agg.
  destruct (list_find _ _) as [[i [k stats]]|] eqn:Hfind.
  - apply list_find_Some in Hfind. destruct Hfind as (Hi & Hk & _).
    simpl in Hk. subst k. apply list_elem_of_lookup_2 in Hi.
    apply list_elem_of_fmap in Hi. destruct Hi as (k & Heq & _).
    injection Heq as <- ->. reflexivity.
  - exfalso.
    assert (Hsome : is_Some (list_find
              (fun line : string * list (string * cell) => fst line = "COUNT")
              (map (fun k => (k, map (fun f => (agg_name f,
                                aggregate f (group_values (fun r : row => Operation r)
                                               (fun r => CFloat (PushRowAvg r)) k df)))
                                     [Mean; Std]))
                   (categories (map (fun r : row => Operation r) df))))).
    { eapply list_find_elem_of;
        [ apply list_elem_of_fmap; exists "COUNT"; split; [reflexivity | exact Hin]
        | reflexivity ]. }
    rewrite Hfind in Hsome. destruct Hsome as [? Hsome]. discriminate.
Qed.

(** X6. [analyze_per_row_costs] returns normally exactly on the tables that
    have a row whose Operation is COUNT, and raises KeyError('COUNT')
    otherwise; in both cases it only prints. The baseline it divides by is
    the mean of PushRowAvg over the COUNT rows. *)
Theorem per_row_analysis_needs_count `{Externals} (df : list row) (w : world) :
  (fst (analyze_per_row_costs df w) = inr tt <->
   Some "COUNT" ∈ map (fun r : row => Operation r) df) /\
  (fst (analyze_per_row_costs df w) = inl (KeyError "COUNT") <->
   Some "COUNT" ∉ map (fun r : row => Operation r) df) /\
  (Some "COUNT" ∈ map (fun r : row => Operation r) df ->
   baseline_result df =
   inr (CFloat (series_mean (map (fun r : row => CFloat (PushRowAvg r))
                                 (filter (fun r : row => Operation r = Some "COUNT") df))))) /\
  files (snd (analyze_per_row_costs df w)) = files w /\
  io_log (snd (analyze_per_row_costs df w)) = io_log w.
Proof.
  destruct (analyze_per_row_costs_returns df w) as (w' & -> & Hf & Hi & _).
  rewrite app_nil_r in Hi. simpl fst. simpl snd.
  destruct (decide (Some "COUNT" ∈ map (fun r : row => Operation r) df)) as [Hin|Hout].
  - rewrite (baseline_present df Hin).
    repeat split; try tauto; try discriminate; try assumption; intros; contradiction.
  - rewrite (baseline_missing df Hout).
    repeat split; try tauto; try discriminate; try assumption.
Qed.

(** X7. On a table with a COUNT row, a target that is not a column of the
    table makes [build_regression_model] raise KeyError(target), after the
    feature matrix is built and before anything is fitted; nothing but the
    console is touched. *)
Theorem unknown_target_raises `{Externals} df target include_interaction w :
  Some "COUNT" ∈ map (fun r : row => Operation r) df ->
  target ∉ map fst schema ->
  fst (build_regression_model df target include_interaction w) = inl (KeyError target) /\
  files (snd (build_regression_model df target include_interaction w)) = files w.
Proof.
  intros Hcount Htarget.
  destruct (build_regression_model_returns df target include_interaction w)
    as (w' & -> & Hf & _).
  split; [|exact Hf]. simpl fst. unfold fit_result.
  rewrite feature_matrix_described. rewrite (bool_decide_eq_true_2 _ Hcount), exn_bind_inr.
  assert (Hcol : column target df = inl (KeyError target)).
  { unfold column. assert (Hacc : accessor target schema = None).
    { clear -Htarget. induction schema as [|[n get] rest IH]; [reflexivity|].
      simpl in *. rewrite not_elem_of_cons in Htarget. destruct Htarget as [Hne Hrest].
      apply not_eq_sym in Hne. apply String.eqb_neq in Hne. rewrite Hne. exact (IH Hrest). }
    rewrite Hacc. reflexivity. }
  rewrite Hcol. reflexivity.
Qed.

Lemma unknown_target_raises_witness :
  fst (@build_regression_model Fixture.routines Fixture.prepared "Gas" true Fixture.start)
  = inl (KeyError "Gas").
Proof.
  apply (unknown_target_raises (H := Fixture.routines) Fixture.prepared "Gas" true Fixture.start).
  - vm_compute. left.
  - vm_compute. intros Hin.
    repeat (apply elem_of_cons in Hin as [Hin|Hin]; [discriminate Hin|]). inversion Hin.
Defined.

(** ** What a run of [main] does, case by case *)

Lemma outcome_of_table_inversion `{Externals} df png code :
  outcome_of_table df = inr (png, code) ->
  exists base model X y y_pred coef_df second,
    baseline_result df = inr base /\
    fit_result df "TotalGas" true = inr (model, X, y, y_pred, coef_df) /\
    fit_result df "PushRowTotal" true = inr second /\
    estimator_code model coef_df = inr code /\
    png = savefig (build_figure df y_pred coef_df).
Proof.
  unfold outcome_of_table.
  destruct (baseline_result df) as [e|base]; [discriminate|]. rewrite exn_bind_inr.
  destruct (fit_result df "TotalGas" true) as [e|[[[[model X] y] y_pred] coef_df]];
    [discriminate|].
  rewrite exn_bind_inr. cbv beta iota.
  destruct (fit_result df "PushRowTotal" true) as [e|second]; [discriminate|].
  rewrite exn_bind_inr.
  destruct (estimator_code model coef_df) as [e|code'] eqn:Hcode; [discriminate|].
  rewrite exn_bind_inr. intros Heq. injection Heq as <- <-.
  exists base, model, X, y, y_pred, coef_df, second. repeat split. exact Hcode.
Qed.

Lemma analysis_outcome_inversion `{Externals} path o png code :
  analysis_outcome path o = inr (png, code) ->
  exists text raw, o = Some text /\ parse_csv text = inr raw /\
                   outcome_of_table (map add_filter_bytes raw) = inr (png, code).
Proof.
  unfold analysis_outcome, loaded. destruct o as [text|]; [|discriminate].
  destruct (parse_csv text) as [e|raw] eqn:Hp; [discriminate|]. rewrite exn_bind_inr.
  intros Hout. exists text, raw. split; [reflexivity|]. split; [exact Hp | exact Hout].
Qed.

(** X8. A run with a path on the command line ends with exit status 0
    exactly when the file exists, the parser accepts its text, the table has
    a COUNT row, and both fits (targets TotalGas and PushRowTotal) return;
    in every other case the status is 1. *)
Theorem run_succeeds_iff `{Externals} prog path rest w :
  (fst (main (prog :: path :: rest) w) = 0%Z <->
   exists text raw first second,
     files w !! path = Some text /\
     parse_csv text = inr raw /\
     Some "COUNT" ∈ map Operation raw /\
     fit_result (map add_filter_bytes raw) "TotalGas" true = inr first /\
     fit_result (map add_filter_bytes raw) "PushRowTotal" true = inr second) /\
  (fst (main (prog :: path :: rest) w) = 0%Z \/ fst (main (prog :: path :: rest) w) = 1%Z).
Proof.
  destruct (main_runs prog path rest w) as (w' & -> & _). simpl fst.
  split; [|destruct (analysis_outcome path (files w !! path)); simpl; auto].
  split.
  - intros Hok.
    destruct (analysis_outcome path (files w !! path)) as [e|[png code]] eqn:Hout;
      [discriminate|].
    destruct (analysis_outcome_inversion _ _ _ _ Hout) as (text & raw & Hfile & Hparse & Htable).
    destruct (outcome_of_table_inversion _ _ _ Htable)
      as (base & model & X & y & y_pred & coef_df & second & Hbase & Hfirst & Hsecond & _).
    exists text, raw, (model, X, y, y_pred, coef_df), second.
    repeat split; try assumption.
    destruct (decide (Some "COUNT" ∈ map Operation raw)) as [Hin|Hno]; [exact Hin|].
    rewrite <- operations_of_loaded in Hno.
    rewrite (baseline_missing _ Hno) in Hbase. discriminate.
  - intros (text & raw & [[[[model X] y] y_pred] coef_df] & second
            & Hfile & Hparse & Hcount & Hfirst & Hsecond).
    rewrite <- operations_of_loaded in Hcount.
    unfold analysis_outcome, loaded, outcome_of_table.
    rewrite Hfile, Hparse, exn_bind_inr, (baseline_present _ Hcount), exn_bind_inr.
    rewrite Hfirst, exn_bind_inr. cbv beta iota. rewrite Hsecond, exn_bind_inr.
    destruct (estimator_code_variants model coef_df) as (code & -> & _). reflexivity.
Qed.

(** X9. A run writes either both output files or none. With exit status 0
    it has opened the input for reading and then written gas_analysis.png
    and estimateJobGas.ts, in this order, and no other file is created or
    changed; with exit status 1 the file system is as before and nothing was
    opened for writing. *)
Theorem outputs_all_or_nothing `{Externals} argv w :
  (fst (main argv w) = 0%Z /\
   exists png code,
     files (snd (main argv w)) =
       <["estimateJobGas.ts" := code]> (<["gas_analysis.png" := png]> (files w)) /\
     io_log (snd (main argv w)) =
       io_log w ++ [ OpenRead (nth 1 argv ""); OpenWrite "gas_analysis.png";
                     OpenWrite "estimateJobGas.ts" ]) \/
  (fst (main argv w) = 1%Z /\
   files (snd (main argv w)) = files w /\
   (io_log (snd (main argv w)) = io_log w \/
    io_log (snd (main argv w)) = io_log w ++ [OpenRead (nth 1 argv "")])).
Proof.
  destruct argv as [|prog [|path rest]].
  1,2: right; rewrite main_usage by (simpl; lia); simpl; auto.
  change (nth 1 (prog :: path :: rest) "") with path.
  destruct (main_runs prog path rest w) as (w' & -> & Hf & Hi & _). simpl fst. simpl snd.
  destruct (analysis_outcome path (files w !! path)) as [e|[png code]] eqn:Hout.
  - right. split; [reflexivity|]. split; [exact Hf|].
    rewrite Hi. unfold reads, output_events. simpl.
    destruct (files w !! path); [right | left]; rewrite ?app_nil_r; reflexivity.
  - left. split; [reflexivity|]. exists png, code. split; [exact Hf|].
    destruct (analysis_outcome_inversion _ _ _ _ Hout) as (text & raw & Hfile & _).
    rewrite Hi, Hfile. reflexivity.
Qed.

(** X10. How [main] reports a failed run: for a missing input file it
    prints the not-found line and nothing reaches the diagnostic stream; for
    every other exception the last line on the console is the exception
    after the word Error and the last entry of the diagnostic stream is the
    traceback of that exception. A run that completes ends with status 0 and
    prints no traceback. In every case what was on the diagnostic stream
    before the run stays in front. *)
Theorem failures_are_reported `{Externals} prog path rest w :
  stderr w `prefix_of` stderr (snd (main (prog :: path :: rest) w)) /\
  match fst (run_analysis path w) with
  | inr _ => fst (main (prog :: path :: rest) w) = 0%Z /\
             forall e, [Raised e] ∈ stderr (snd (main (prog :: path :: rest) w)) ->
                       [Raised e] ∈ stderr w
  | inl (FileNotFoundError _) =>
      fst (main (prog :: path :: rest) w) = 1%Z /\
      stderr (snd (main (prog :: path :: rest) w)) = stderr w /\
      last (stdout (snd (main (prog :: path :: rest) w)))
      = Some [Lit "Error: File '"; Lit path; Lit "' not found"]
  | inl e =>
      fst (main (prog :: path :: rest) w) = 1%Z /\
      last (stderr (snd (main (prog :: path :: rest) w))) = Some [Raised e] /\
      last (stdout (snd (main (prog :: path :: rest) w))) = Some [Lit "Error: "; Raised e]
  end.
Proof.
  unfold main. change (length (prog :: path :: rest) <? 2)%nat with false.
  change (nth 1 (prog :: path :: rest) "") with path. cbv iota zeta.
  destruct (run_analysis_returns path w) as (w1 & -> & _ & _ & He & _). simpl fst.
  destruct (analysis_outcome path (files w !! path)) as [e|[png code]]; simpl completed.
  - destruct e; simpl; rewrite ?last_snoc, ?He;
      repeat split; try reflexivity; apply prefix_app_r; reflexivity.
  - simpl. rewrite He. split; [reflexivity|]. split; [reflexivity | tauto].
Qed.

(** X11. Every run that ends with exit status 0 has written the
    with-interaction variant of the estimator, product of rows and columns
    included: [main] never asks for a fit without the interaction term, so
    the other template is never written by the program. *)
Theorem runs_write_the_interaction_variant `{Externals} argv w :
  fst (main argv w) = 0%Z ->
  exists code,
    files (snd (main argv w)) !! "estimateJobGas.ts" = Some code /\
    with_interaction_variant code /\
    occurs interaction_product code /\
    ~ without_interaction_variant code.
Proof.
  destruct argv as [|prog [|path rest]].
  1,2: rewrite main_usage by (simpl; lia); discriminate.
  destruct (main_runs prog path rest w) as (w' & -> & Hf & _). simpl fst. simpl snd.
  intros Hok.
  destruct (analysis_outcome path (files w !! path)) as [e|[png code]] eqn:Hout;
    [discriminate|].
  destruct (analysis_outcome_inversion _ _ _ _ Hout) as (text & raw & _ & _ & Htable).
  destruct (outcome_of_table_inversion _ _ _ Htable)
    as (base & model & X & y & y_pred & coef_df & second & _ & Hfirst & _ & Hcode & _).
  destruct (fitted_table _ _ _ _ _ _ _ _ Hfirst) as (Hnames & Hnd & Htab & Hlen).
  assert (Hfour : exists c, coef_ model !! 3%nat = Some c).
  { rewrite Hnames in Hlen. simpl in Hlen.
    destruct (coef_ model) as [|c0 [|c1 [|c2 [|c3 more]]]]; try discriminate. eauto. }
  destruct Hfour as [c3 Hc3].
  destruct (lookup_by_name _ _ _ 3%nat "Rows_x_Columns" c3 Hnd Htab) as [Hhas _];
    [rewrite Hnames; reflexivity | exact Hc3 |].
  destruct (estimator_code_variants model coef_df) as (code' & Hcode' & Hvariant).
  rewrite Hhas in Hvariant. rewrite Hcode in Hcode'. injection Hcode' as <-.
  exists code. rewrite Hf. split; [apply lookup_insert_eq|]. split; [exact Hvariant|].
  split; [apply contains_occurs, with_interaction_has_product, Hvariant|].
  intros Hwithout. apply without_interaction_no_product in Hwithout.
  rewrite (with_interaction_has_product code Hvariant) in Hwithout. discriminate.
Qed.

Lemma runs_write_the_interaction_variant_witness :
  exists code,
    files (snd (@main Fixture.routines ["analyze_gas_results.py"; "results.csv"] Fixture.start))
      !! "estimateJobGas.ts" = Some code /\
    occurs interaction_product code.
Proof.
  destruct (runs_write_the_interaction_variant (H := Fixture.routines)
              ["analyze_gas_results.py"; "results.csv"] Fixture.start
              ltac:(vm_compute; reflexivity))
    as (code & Hfile & _ & Hocc & _).
  exists code. split; [exact Hfile | exact Hocc].
Defined.

(** ** Indicators and groups *)

Lemma filter_label (o : option string) : forall l : list string,
  NoDup l ->
  filter (fun v => o = Some v) l =
  match o with
  | Some s => if decide (s ∈ l) then [s] else []
  | None => []
  end.
Proof.
  induction l as [|x l IH]; intros Hnd.
  - destruct o; reflexivity.
  - apply NoDup_cons in Hnd. destruct Hnd as [Hx Hnd]. rewrite filter_cons.
    destruct (decide (o = Some x)) as [->|Hne].
    + rewrite (IH Hnd).
      rewrite (decide_False (P := x ∈ l)) by exact Hx.
      rewrite (decide_True (P := x ∈ x :: l)) by apply list_elem_of_here. reflexivity.
    + rewrite (IH Hnd). destruct o as [s|]; [|reflexivity].
      destruct (decide (s ∈ l)) as [Hin|Hout].
      * rewrite decide_True by (apply list_elem_of_further, Hin). reflexivity.
      * rewrite decide_False; [reflexivity|]. rewrite elem_of_cons.
        intros [->|Hin]; [apply Hne; reflexivity | exact (Hout Hin)].
Qed.

Lemma true_columns_app (i : nat) (X Y : list (string * list cell)) :
  true_columns i (X ++ Y) = true_columns i X ++ true_columns i Y.
Proof. unfold true_columns. rewrite filter_app, map_app. reflexivity. Qed.

Lemma true_columns_indicators (df : list row) (i : nat) (r : row) :
  df !! i = Some r ->
  forall l : list string,
    true_columns i (map (fun v => ("Op_" +:+ v, indicator v df)) l)
    = map (fun v => "Op_" +:+ v) (filter (fun v => Operation r = Some v) l).
Proof.
  intros Hi. induction l as [|v l IH]; [reflexivity|].
  unfold true_columns in *. cbn [map]. rewrite !filter_cons.
  assert (Hcell : true_at i ("Op_" +:+ v, indicator v df)
                  = bool_decide (Operation r = Some v)).
  { unfold true_at, indicator. cbn [snd].
    rewrite (list_lookup_fmap (fun r : row => CBool (bool_decide (Operation r = Some v))) df i).
    rewrite Hi. cbn. destruct (bool_decide (Operation r = Some v)); reflexivity. }
  rewrite Hcell. destruct (decide (Operation r = Some v)) as [Hop|Hop].
  - rewrite bool_decide_eq_true_2 by exact Hop.
    rewrite decide_True by reflexivity. cbn [map fst]. rewrite IH. reflexivity.
  - rewrite bool_decide_eq_false_2 by exact Hop.
    rewrite decide_False by discriminate. exact IH.
Qed.

(** X12. In the feature matrix the fitter builds, the columns that are true
    in a row are: the indicator column of the row's Operation and no other
    when that Operation is a value other than COUNT, and no column at all
    when it is COUNT or missing. So a row without an Operation is encoded
    like a COUNT row. *)
Theorem one_indicator_per_row (df : list row) (include_interaction : bool)
        (X : frame) (i : nat) (r : row) :
  feature_matrix df include_interaction = inr X ->
  df !! i = Some r ->
  true_columns i X =
  match Operation r with
  | Some s => if decide (s = "COUNT") then [] else ["Op_" +:+ s]
  | None => []
  end.
Proof.
  intros HX Hi. rewrite feature_matrix_described in HX.
  case_bool_decide; [|discriminate]. injection HX as <-.
  unfold described_feature_matrix. rewrite !true_columns_app.
  rewrite (true_columns_indicators df i r Hi).
  rewrite filter_label by (apply NoDup_filter, categories_NoDup).
  assert (Hbase : true_columns i
                    [ ("Rows", ints Rows df); ("Columns", ints Columns df);
                      ("FilterBytes", map (fun r : row => int_or_nan (FilterBytes r)) df) ] = []).
  { unfold true_columns, true_at, ints. rewrite !filter_cons, filter_nil. cbn [snd].
    rewrite !list_lookup_fmap, Hi. cbn. destruct (FilterBytes r); reflexivity. }
  assert (Hinter : true_columns i
                     (if include_interaction
                      then [("Rows_x_Columns",
                             map (fun r : row => CInt (wrap_int64 (Rows r * Columns r))) df)]
                      else []) = []).
  { destruct include_interaction; [|reflexivity].
    unfold true_columns, true_at. rewrite filter_cons, filter_nil. cbn [snd].
    rewrite list_lookup_fmap, Hi. reflexivity. }
  rewrite Hbase, Hinter. cbn [app].
  destruct (Operation r) as [s|] eqn:Hop; [|reflexivity].
  assert (Hin : Some s ∈ map (fun r : row => Operation r) df).
  { rewrite <- Hop. apply (list_elem_of_fmap_2 (fun r : row => Operation r)).
    apply list_elem_of_lookup. eauto. }
  destruct (decide (s = "COUNT")) as [->|Hne].
  - rewrite decide_False; [reflexivity|]. rewrite indicator_labels_spec. tauto.
  - rewrite decide_True; [reflexivity|]. rewrite indicator_labels_spec. tauto.
Qed.

Lemma one_indicator_per_row_witness :
  true_columns 1 (described_feature_matrix Fixture.prepared true) = ["Op_SUM"].
Proof.
  exact (one_indicator_per_row Fixture.prepared true
           (described_feature_matrix Fixture.prepared true) 1%nat
           (add_filter_bytes Fixture.sum_row)
           ltac:(vm_compute; reflexivity) eq_refl).
Defined.

Lemma groups_of_absent (key : row -> option string) (r : row) (df : list row) :
  forall ks : list string,
    (forall k, k ∈ ks -> key r <> Some k) ->
    flat_map (fun k => filter (fun r : row => key r = Some k) (r :: df)) ks
    = flat_map (fun k => filter (fun r : row => key r = Some k) df) ks.
Proof.
  induction ks as [|k ks IH]; intros Hno; [reflexivity|].
  cbn [flat_map]. rewrite filter_cons, IH.
  - destruct (decide (key r = Some k)) as [Heq|_]; [|reflexivity].
    exfalso. exact (Hno k (list_elem_of_here _ _) Heq).
  - intros k' Hk'. apply Hno, list_elem_of_further, Hk'.
Qed.

Lemma groups_of_present (key : row -> option string) (r : row) (df : list row) (s : string) :
  key r = Some s ->
  forall ks : list string,
    NoDup ks -> s ∈ ks ->
    flat_map (fun k => filter (fun r : row => key r = Some k) (r :: df)) ks
    ≡ₚ r :: flat_map (fun k => filter (fun r : row => key r = Some k) df) ks.
Proof.
  intros Hs. induction ks as [|k ks IH]; intros Hnd Hin; [inversion Hin|].
  apply NoDup_cons in Hnd. destruct Hnd as [Hk Hnd].
  cbn [flat_map]. rewrite filter_cons.
  destruct (decide (key r = Some k)) as [Heq|Hne].
  - assert (k = s) as -> by congruence.
    rewrite groups_of_absent; [reflexivity|].
    intros k' Hk' Heq'. assert (k' = s) as -> by congruence. contradiction.
  - apply elem_of_cons in Hin. destruct Hin as [->|Hin]; [contradiction|].
    rewrite (IH Hnd Hin). symmetry. apply Permutation_middle.
Qed.

(** X13. Grouping by a label column partitions the rows that have a label:
    the groups of [groupby], taken over the distinct labels, hold together
    exactly the values of the rows whose label is not missing, each once.
    Rows with a missing label enter no group, so they are left out of every
    per-group statistic and of the boxplot. *)
Theorem groups_partition_labelled_rows (key : row -> option string) (value : row -> cell)
        (df : list row) :
  flat_map (fun k => group_values key value k df) (categories (map key df))
  ≡ₚ map value (filter (fun r : row => is_Some (key r)) df).
Proof.
  unfold group_values.
  assert (Hmap : forall ks : list string,
             flat_map (fun k => map value (filter (fun r : row => key r = Some k) df)) ks
             = map value (flat_map (fun k => filter (fun r : row => key r = Some k) df) ks)).
  { induction ks as [|k ks IH]; [reflexivity|]. cbn [flat_map]. rewrite map_app, IH.
    reflexivity. }
  rewrite Hmap. clear Hmap. apply Permutation_map.
  assert (Hgen : forall ks : list string,
             NoDup ks ->
             (forall (r : row) k, r ∈ df -> key r = Some k -> k ∈ ks) ->
             flat_map (fun k => filter (fun r : row => key r = Some k) df) ks
             ≡ₚ filter (fun r : row => is_Some (key r)) df).
  { intros ks Hnd. induction df as [|r df' IH]; intros Hcover.
    - clear. induction ks as [|k ks IH]; [reflexivity|]. cbn [flat_map]. exact IH.
    - rewrite filter_cons. destruct (key r) as [s|] eqn:Hr.
      + case_decide as Hd; [|exfalso; apply Hd; eauto].
        rewrite (groups_of_present key r df' s Hr ks Hnd)
          by (apply (Hcover r s); [apply list_elem_of_here | exact Hr]).
        apply Permutation_skip, IH.
        intros r' k Hr' Hk. apply (Hcover r' k); [apply list_elem_of_further, Hr' | exact Hk].
      + case_decide as Hd; [destruct Hd as [? Hd]; discriminate Hd|].
        rewrite groups_of_absent by (intros k _; rewrite Hr; discriminate).
        apply IH. intros r' k Hr' Hk.
        apply (Hcover r' k); [apply list_elem_of_further, Hr' | exact Hk]. }
  apply Hgen; [apply categories_NoDup|].
  intros r k Hr Hk. apply elem_of_categories. rewrite <- Hk.
  apply (list_elem_of_fmap_2 key), Hr.
Qed.

(** ** Rounding to an integer *)

(** X14. The integer [.0f] prints for a finite float m * 2^e is m * 2^e
    itself when e >= 0 and otherwise an integer at distance at most one half
    from it, the even one of the two when the distance is exactly one half
    on both sides; the digits printed read back as that integer, and a
    negative sign (also of a negative zero, or of a negative value rounded to
    zero) is printed as a leading minus. *)
Theorem format_0f_rounds_to_nearest (neg : bool) (m : N) (e : Z) :
  ((0 <= e)%Z -> round_half_even m e = (m * 2 ^ Z.to_N e)%N) /\
  ((e < 0)%Z ->
   (2 * round_half_even m e * 2 ^ Z.to_N (- e) <= 2 * m + 2 ^ Z.to_N (- e))%N /\
   (2 * m <= 2 * round_half_even m e * 2 ^ Z.to_N (- e) + 2 ^ Z.to_N (- e))%N /\
   ((2 * m + 2 ^ Z.to_N (- e) = 2 * round_half_even m e * 2 ^ Z.to_N (- e) \/
     2 * m = 2 * round_half_even m e * 2 ^ Z.to_N (- e) + 2 ^ Z.to_N (- e))%N ->
    N.even (round_half_even m e) = true)) /\
  NilZero.uint_of_string (format_0f (FFin false m e)) = Some (N.to_uint (round_half_even m e)) /\
  N.of_uint (N.to_uint (round_half_even m e)) = round_half_even m e /\
  format_0f (FFin true m e) = String "-" (format_0f (FFin false m e)).
Proof.
  split; [|split; [|split; [|split]]].
  - intros He. unfold round_half_even. destruct (Z.leb_spec 0 e); [reflexivity | lia].
  - intros He. unfold round_half_even. destruct (Z.leb_spec 0 e) as [?|_]; [lia|].
    set (d := (2 ^ Z.to_N (- e))%N).
    assert (Hd : d <> 0%N) by (unfold d; apply N.pow_nonzero; discriminate).
    pose proof (N.div_mod m d Hd) as Hm. pose proof (N.mod_lt m d Hd) as Hr.
    set (q := (m / d)%N) in *. set (r := (m mod d)%N) in *.
    destruct (N.compare_spec (2 * r) d) as [Heq|Hlt|Hgt].
    + destruct (N.even q) eqn:Hev.
      * repeat split; try nia. intros _. exact Hev.
      * repeat split; try nia. intros _.
        replace (q + 1)%N with (N.succ q) by lia.
        rewrite N.even_succ, <- N.negb_even, Hev. reflexivity.
    + repeat split; try nia; intros [Ht|Ht]; exfalso; nia.
    + repeat split; try nia; intros [Ht|Ht]; exfalso; nia.
  - unfold format_0f, sign_prefix.
    change ("" +:+ ?s) with s.
    destruct (round_half_even m e) as [|p]; [reflexivity|].
    apply NilZero.usu. apply Unsigned.to_uint_nonnil.
  - apply DecimalN.Unsigned.of_to.
  - reflexivity.
Qed.

Example rounding_of_halves :
  format_0f (FFin false 1 (-1)) = "0" /\ format_0f (FFin false 3 (-1)) = "2" /\
  format_0f (FFin true 1 (-1)) = "-0" /\ format_0f (FFin false 3 2) = "12" /\
  format_0f FNaN = "nan" /\ format_0f (FInf true) = "-inf".
Proof. repeat split; reflexivity. Qed.

(** ** Every way the fitter can fail *)

(** X15. [build_regression_model] returns (rather than raises) exactly when
    the table has a COUNT row, the target is a column of the table, the
    library fit on the described feature matrix returns, and the model has
    one coefficient per column of that matrix. *)
Theorem fitter_returns_iff `{Externals} df target include_interaction w :
  (exists result, fst (build_regression_model df target include_interaction w) = inr result)
  <->
  Some "COUNT" ∈ map (fun r : row => Operation r) df /\
  exists y model,
    column target df = inr y /\
    lr_fit (described_feature_matrix df include_interaction) y = inr model /\
    length (coef_ model) = length (described_feature_matrix df include_interaction).
Proof.
  destruct (build_regression_model_returns df target include_interaction w)
    as (w' & -> & _). simpl fst. unfold fit_result.
  rewrite feature_matrix_described. split.
  - intros [result Hres]. case_bool_decide as Hcount; [|discriminate].
    split; [exact Hcount|]. rewrite exn_bind_inr in Hres.
    destruct (column target df) as [e|y]; [discriminate|]. rewrite exn_bind_inr in Hres.
    destruct (lr_fit _ y) as [e|model] eqn:Hfit; [discriminate|].
    rewrite exn_bind_inr in Hres. exists y, model. repeat split; [exact Hfit|].
    unfold coefficient_table in Hres. rewrite length_map in Hres.
    destruct (Nat.eqb_spec (length (described_feature_matrix df include_interaction))
                           (length (coef_ model))); [congruence | discriminate].
  - intros (Hcount & y & model & Hy & Hfit & Hlen).
    rewrite (bool_decide_eq_true_2 _ Hcount), exn_bind_inr, Hy, exn_bind_inr, Hfit, exn_bind_inr.
    unfold coefficient_table. rewrite length_map, <- Hlen, Nat.eqb_refl, exn_bind_inr.
    eexists. reflexivity.
Qed.
